(** * Multimodal RAG demo: indexing pipeline and query script

    A shallow embedding of [config.py], [setup_pipeline.py] and
    [rag_query.py].  Python values are modelled as follows.

    - [str] is [string]; one [ascii] stands for one code point below 256.
    - [bytes] is [list byte].
    - An exception is a value of [exn]; every exception of the model is an
      instance of Python's [Exception] class, which is what [except
      Exception] catches.
    - Code with effects lives in the monad [M W A := W -> result A * W]
      over a world [W] (state of the external services, files, log of
      external calls).  A raised exception keeps the world reached so far.
    - Standard output ([print]) is not part of the model. *)

From Stdlib Require Import ZArith Ascii String List.
From Stdlib Require Import Strings.Byte.
From stdpp Require Import base option list strings pretty gmap.

Local Open Scope string_scope.
Local Open Scope list_scope.
Local Open Scope stdpp_scope.

(* ===================================================================== *)
(** ** Python prelude *)
(* ===================================================================== *)

Module Py.

(** An exception object: its class name and its message. *)
Record exn := Exception { exn_class : string; exn_msg : string }.

Inductive result (A : Type) : Type :=
| Ok (a : A)
| Raise (e : exn).
Arguments Ok {A} a.
Arguments Raise {A} e.

Definition is_ok {A} (r : result A) : bool :=
  match r with Ok _ => true | Raise _ => false end.

(** The state-and-exception monad. *)
Definition M (W A : Type) : Type := W -> result A * W.

Definition ret {W A} (a : A) : M W A := fun w => (Ok a, w).

Definition bind {W A B} (m : M W A) (k : A -> M W B) : M W B :=
  fun w =>
    match m w with
    | (Ok a, w') => k a w'
    | (Raise e, w') => (Raise e, w')
    end.

Definition raise {W A} (e : exn) : M W A := fun w => (Raise e, w).

(** [try: body except Exception as e: handler e]. *)
Definition try_except {W A} (body : M W A) (handler : exn -> M W A) : M W A :=
  fun w =>
    match body w with
    | (Ok a, w') => (Ok a, w')
    | (Raise e, w') => handler e w'
    end.

(** Lifting of a pure computation that may raise. *)
Definition lift {W A} (r : result A) : M W A := fun w => (r, w).

Definition gets {W A} (f : W -> A) : M W A := fun w => (Ok (f w), w).
Definition modify {W} (f : W -> W) : M W unit := fun w => (Ok tt, f w).

(** *** Strings *)

(** Truth value of a [str]: non-empty. *)
Definition str_truthy (s : string) : bool :=
  match s with EmptyString => false | String _ _ => true end.

(** Truth value of an optional [str] ([None] or [""] are false). *)
Definition opt_str_truthy (o : option string) : bool :=
  match o with Some s => str_truthy s | None => false end.

(** [c.isspace()] for a code point below 256: TAB, LF, VT, FF, CR,
    FS, GS, RS, US, space, NEL and NBSP. *)
Definition isspace (c : ascii) : bool :=
  let n := nat_of_ascii c in
  (((9 <=? n) && (n <=? 13)) || ((28 <=? n) && (n <=? 32))
   || (n =? 133) || (n =? 160))%nat.

Fixpoint lstrip (s : string) : string :=
  match s with
  | EmptyString => EmptyString
  | String c s' => if isspace c then lstrip s' else s
  end.

Fixpoint str_rev_onto (s acc : string) : string :=
  match s with
  | EmptyString => acc
  | String c s' => str_rev_onto s' (String c acc)
  end.

Definition str_rev (s : string) : string := str_rev_onto s EmptyString.

Definition rstrip (s : string) : string := str_rev (lstrip (str_rev s)).

(** [s.strip()]. *)
Definition strip (s : string) : string := rstrip (lstrip s).

(** Every character of [s] is white space ([s.strip()] is empty). *)
Fixpoint blank (s : string) : bool :=
  match s with
  | EmptyString => true
  | String c s' => isspace c && blank s'
  end.

(** [s.split(sep)[-1]] for a one-character separator: the part of [s]
    after the last occurrence of [sep], or [s] itself. *)
Fixpoint split_last_from (sep : ascii) (s cur : string) : string :=
  match s with
  | EmptyString => str_rev cur
  | String c s' =>
      if Ascii.eqb c sep then split_last_from sep s' EmptyString
      else split_last_from sep s' (String c cur)
  end.

Definition split_last (sep : ascii) (s : string) : string :=
  split_last_from sep s EmptyString.

(** [s.replace(c, "")] for a one-character [c]. *)
Fixpoint remove_char (c : ascii) (s : string) : string :=
  match s with
  | EmptyString => EmptyString
  | String d s' =>
      if Ascii.eqb d c then remove_char c s' else String d (remove_char c s')
  end.

(** [needle in hay]. *)
Fixpoint contains (needle hay : string) : bool :=
  String.prefix needle hay ||
  match hay with
  | EmptyString => false
  | String _ hay' => contains needle hay'
  end.

(** The character [c] does not occur in [s]. *)
Fixpoint lacks (c : ascii) (s : string) : bool :=
  match s with
  | EmptyString => true
  | String d s' => negb (Ascii.eqb d c) && lacks c s'
  end.

(** [str(n)] for an [int], and for an optional [int] ([str(None)]). *)
Definition str_int (n : Z) : string := pretty n.

Definition str_opt_int (o : option Z) : string :=
  match o with Some n => str_int n | None => "None" end.

End Py.

Export Py.

Declare Scope py_scope.
Delimit Scope py_scope with py.
Notation "'let!' x ':=' m 'in' k" := (Py.bind m (fun x => k))
  (at level 10, x binder, m at level 100, k at level 200) : py_scope.
Notation "'do!' m 'in' k" := (Py.bind m (fun _ => k))
  (at level 10, m at level 100, k at level 200) : py_scope.
Local Open Scope py_scope.

(* ===================================================================== *)
(** ** config.py *)
(* ===================================================================== *)

Module config.
Definition PDF_PATH : string := "data/jemh109.pdf".
Definition QDRANT_URL : string := "http://localhost:6333".
Definition COLLECTION_NAME : string := "jmeh_multimodal".
Definition TEXT_EMBEDDING_MODEL : string := "nomic-embed-text".
Definition IMAGE_SUMMARY_MODEL : string := "llava-cpu".
Definition LLM_MODEL : string := "llama3".
Definition OLLAMA_BASE_URL : string := "http://localhost:11434".
End config.

(* ===================================================================== *)
(** ** setup_pipeline.py: the indexer *)
(* ===================================================================== *)

Module setup_pipeline.

(** *** Values of the external libraries *)

(** The class of an element, as the partitioning library defines it. *)
Record PyClass := { cls_module : string; cls_name : string }.

(** [str(type(el))], for instance
    [<class 'unstructured.documents.elements.Image'>]. *)
Definition type_repr (c : PyClass) : string :=
  "<class '" +:+ cls_module c +:+ "." +:+ cls_name c +:+ "'>".

Record ElementMetadata := {
  page_number : option Z;
  text_as_html : option string
}.

(** One element of the partitioning output.  Every element of the
    library carries a [text] of type [str], so [hasattr(el, 'text')]
    holds; [image_bytes] is [None] when the attribute is missing or is
    [None]. *)
Record Element := {
  el_class : PyClass;
  text : string;
  image_bytes : option (list byte);
  metadata : ElementMetadata
}.

(** The metadata dictionary of a [Document], with its three keys. *)
Record DocMetadata := {
  md_source : string;
  md_page_number : option Z;
  md_type : string
}.

Record Document := {
  page_content : string;
  doc_metadata : DocMetadata
}.

Record ChatOllama := { llm_model : string; llm_base_url : string }.
Record OllamaEmbeddings := { emb_model : string; emb_base_url : string }.

(** Content parts of a [HumanMessage] and the inputs of [invoke]. *)
Inductive ContentPart :=
| TextPart (txt : string)
| ImageUrlPart (image_url : string).

Inductive ChatInput :=
| InputStr (prompt : string)
| InputMessages (msgs : list (list ContentPart)).

(** *** The external services

    Everything the script delegates: the file system test, the model
    server (state [Ollama]), the vector database (state [QdrantDB]), the
    PDF partitioning and the image library.  Each operation returns a
    value or raises. *)
Class Services := {
  Ollama : Type;
  QdrantDB : Type;
  PILImage : Type;
  path_exists : string -> bool;
  OllamaEmbeddings_init : string -> string -> Ollama -> result unit * Ollama;
  ChatOllama_init : string -> string -> Ollama -> result unit * Ollama;
  ChatOllama_invoke : ChatOllama -> ChatInput -> Ollama -> result string * Ollama;
  partition_pdf : string -> string -> bool -> bool -> result (list Element);
  Image_open : list byte -> result PILImage;
  Image_thumbnail : PILImage -> nat * nat -> result PILImage;
  Image_save : PILImage -> string -> result (list byte);
  b64encode : list byte -> string;
  Qdrant_from_documents :
    list Document -> OllamaEmbeddings -> string -> string -> bool ->
    Ollama * QdrantDB -> result unit * (Ollama * QdrantDB)
}.

(** The external calls a run issues, in order. *)
Inductive Call :=
| CallPathExists (p : string)
| CallOllamaEmbeddings (model base_url : string)
| CallChatOllama (model base_url : string)
| CallInvoke (llm : ChatOllama) (input : ChatInput)
| CallPartitionPdf (filename : string)
| CallFromDocuments (docs : list Document) (url collection_name : string).

Definition is_model_call (c : Call) : bool :=
  match c with
  | CallOllamaEmbeddings _ _ | CallChatOllama _ _ | CallInvoke _ _ => true
  | _ => false
  end.

Definition is_vector_store_call (c : Call) : bool :=
  match c with
  | CallFromDocuments _ _ _ => true
  | _ => false
  end.

Section Pipeline.
Context `{S : Services}.

Record World := {
  ollama : Ollama;
  qdrant : QdrantDB;
  calls : list Call
}.

Definition log (c : Call) : M World unit :=
  modify (fun w =>
    {| ollama := ollama w; qdrant := qdrant w; calls := calls w ++ [c] |}).

(** An operation of the model server, run on the [ollama] component. *)
Definition on_ollama {A} (f : Ollama -> result A * Ollama) : M World A :=
  fun w =>
    let (r, o) := f (ollama w) in
    (r, {| ollama := o; qdrant := qdrant w; calls := calls w |}).

Definition Path_exists (p : string) : M World bool :=
  do! log (CallPathExists p) in
  ret (path_exists p).

Definition new_OllamaEmbeddings (model base_url : string)
  : M World OllamaEmbeddings :=
  do! log (CallOllamaEmbeddings model base_url) in
  do! on_ollama (OllamaEmbeddings_init model base_url) in
  ret {| emb_model := model; emb_base_url := base_url |}.

Definition new_ChatOllama (model base_url : string) : M World ChatOllama :=
  do! log (CallChatOllama model base_url) in
  do! on_ollama (ChatOllama_init model base_url) in
  ret {| llm_model := model; llm_base_url := base_url |}.

Definition invoke (llm : ChatOllama) (input : ChatInput) : M World string :=
  do! log (CallInvoke llm input) in
  on_ollama (ChatOllama_invoke llm input).

Definition call_partition_pdf (filename strategy : string)
    (infer_table_structure extract_images_in_pdf : bool)
  : M World (list Element) :=
  do! log (CallPartitionPdf filename) in
  lift (partition_pdf filename strategy infer_table_structure
          extract_images_in_pdf).

Definition from_documents (documents : list Document)
    (embeddings : OllamaEmbeddings) (url collection_name : string)
    (force_recreate : bool) : M World unit :=
  do! log (CallFromDocuments documents url collection_name) in
  fun w =>
    let '(r, (o, q)) :=
      Qdrant_from_documents documents embeddings url collection_name
        force_recreate (ollama w, qdrant w) in
    (r, {| ollama := o; qdrant := q; calls := calls w |}).

(** *** [encode_image_to_base64] *)
Definition encode_image_to_base64 (image : PILImage) : result string :=
  match Image_save image "PNG" with
  | Ok buffered => Ok (b64encode buffered)
  | Raise e => Raise e
  end.

(** *** [summarize_image] *)

Definition summarize_instruction : string :=
  "Describe this image in detail. What mathematical concepts, " +:+
  "diagrams, or formulas are visible? Be descriptive. This " +:+
  "description will be used for a search index.".

Definition summarize_message (img_b64 : string) : list ContentPart :=
  [ TextPart summarize_instruction;
    ImageUrlPart ("data:image/png;base64," +:+ img_b64) ].

Definition summarize_fallback : string := "Failed to summarize image".

(** The body of the [try] block. *)
Definition summarize_image_try (image_bytes : list byte)
    (llm_vision : ChatOllama) : M World string :=
  let! pil_image := lift (Image_open image_bytes) in
  let! pil_image := lift (Image_thumbnail pil_image (1024, 1024)%nat) in
  let! img_b64 := lift (encode_image_to_base64 pil_image) in
  let msg := summarize_message img_b64 in
  let! response_content := invoke llm_vision (InputMessages [msg]) in
  ret response_content.

Definition summarize_image (image_bytes : list byte)
    (llm_vision : ChatOllama) : M World string :=
  try_except (summarize_image_try image_bytes llm_vision)
             (fun _ => ret summarize_fallback).

(** *** The element loop of [main] *)

Definition newline : string := String (ascii_of_nat 10) EmptyString.

(** [str(type(el)).split('.')[-1].replace("'", "").replace(">", "")] *)
Definition element_type (el : Element) : string :=
  remove_char ">"
    (remove_char "'" (split_last "." (type_repr (el_class el)))).

Definition mk_document (content : string) (el : Element) (ty : string)
  : Document :=
  {| page_content := content;
     doc_metadata :=
       {| md_source := config.PDF_PATH;
          md_page_number := page_number (metadata el);
          md_type := ty |} |}.

(** The content chosen for a table element. *)
Definition table_content (el : Element) : string :=
  match text_as_html (metadata el) with
  | Some (String c h) =>
      "Table on page " +:+ str_opt_int (page_number (metadata el)) +:+ ":"
      +:+ newline +:+ String c h
  | _ => text el
  end.

(** One iteration of [for el in elements]; [documents] is the list
    built so far and the result is the list after the iteration. *)
Definition process_element (llm_vision : ChatOllama)
    (documents : list Document) (el : Element) : M World (list Document) :=
  let element_type := element_type el in
  if String.eqb element_type "Image" then
    match image_bytes el with
    | Some (b :: bs) =>
        let! summary := summarize_image (b :: bs) llm_vision in
        ret (documents ++ [mk_document summary el "image_summary"])
    | _ => ret documents
    end
  else if contains "Table" element_type then
    let content := table_content el in
    ret (documents ++ [mk_document content el "table"])
  else if str_truthy (strip (text el)) then
    ret (documents ++ [mk_document (text el) el element_type])
  else ret documents.

Fixpoint process_elements (llm_vision : ChatOllama)
    (documents : list Document) (elements : list Element)
  : M World (list Document) :=
  match elements with
  | [] => ret documents
  | el :: rest =>
      let! documents := process_element llm_vision documents el in
      process_elements llm_vision documents rest
  end.

(** *** [main] *)

(** Step 1, the body of the first [try] block. *)
Definition init_models : M World (OllamaEmbeddings * ChatOllama) :=
  let! embeddings :=
    new_OllamaEmbeddings config.TEXT_EMBEDDING_MODEL config.OLLAMA_BASE_URL in
  let! llm_vision :=
    new_ChatOllama config.IMAGE_SUMMARY_MODEL config.OLLAMA_BASE_URL in
  do! invoke llm_vision (InputStr "test") in
  ret (embeddings, llm_vision).

(** A [try] block whose handler returns from [main]: [None] stands for
    that early return. *)
Definition try_or_return {A} (body : M World A) : M World (option A) :=
  try_except (let! a := body in ret (Some a)) (fun _ => ret None).

(** The existence test and steps 1 and 2: [None] when [main] has
    returned early. *)
Definition load_inputs
  : M World (option (OllamaEmbeddings * ChatOllama * list Element)) :=
  let! found := Path_exists config.PDF_PATH in
  if negb found then ret None
  else
    let! models := try_or_return init_models in
    match models with
    | None => ret None
    | Some (embeddings, llm_vision) =>
        let! elements :=
          try_or_return
            (call_partition_pdf config.PDF_PATH "hi_res" true true) in
        match elements with
        | None => ret None
        | Some elements => ret (Some (embeddings, llm_vision, elements))
        end
    end.

(** Up to the end of step 3: the document list of the run. *)
Definition build_documents
  : M World (option (OllamaEmbeddings * list Document)) :=
  let! inputs := load_inputs in
  match inputs with
  | None => ret None
  | Some (embeddings, llm_vision, elements) =>
      let! documents := process_elements llm_vision [] elements in
      ret (Some (embeddings, documents))
  end.

(** The emptiness test and step 4. *)
Definition store_documents (embeddings : OllamaEmbeddings)
    (documents : list Document) : M World unit :=
  match documents with
  | [] => ret tt
  | _ :: _ =>
      from_documents documents embeddings config.QDRANT_URL
        config.COLLECTION_NAME true
  end.

Definition main : M World unit :=
  let! built := build_documents in
  match built with
  | None => ret tt
  | Some (embeddings, documents) => store_documents embeddings documents
  end.

End Pipeline.

End setup_pipeline.

(* ===================================================================== *)
(** ** rag_query.py: the query script *)
(* ===================================================================== *)

Module rag_query.

(** *** JSON documents and chat messages *)

(** A value as [json.load] returns it.  An object is its list of items;
    a key occurs once.  A session file is modelled by the document it
    holds: [json.dump] followed by [json.load] gives the document back. *)
#[local] Unset Elimination Schemes.
Inductive json :=
| JNull
| JBool (b : bool)
| JInt (z : Z)
| JFloat (literal : string)
| JStr (s : string)
| JList (items : list json)
| JDict (items : list (string * json)).
#[local] Set Elimination Schemes.

(** The content a chat message accepts: a [str], or a list whose items
    are [str] or [dict]. *)
Inductive Block :=
| BlockStr (s : string)
| BlockDict (items : list (string * json)).

Inductive Content :=
| ContentStr (s : string)
| ContentBlocks (blocks : list Block).

(** The message classes of the chat framework; [OtherMessage] stands for
    the classes that are neither [HumanMessage] nor [AIMessage] (system,
    tool, function and chat messages). *)
Inductive Message :=
| HumanMessage (content : Content)
| AIMessage (content : Content)
| OtherMessage (cls : string) (content : Content).

Definition content (msg : Message) : Content :=
  match msg with
  | HumanMessage c | AIMessage c | OtherMessage _ c => c
  end.

(** [isinstance(msg, HumanMessage)] *)
Definition is_HumanMessage (msg : Message) : bool :=
  match msg with HumanMessage _ => true | _ => false end.

Definition is_AIMessage (msg : Message) : bool :=
  match msg with AIMessage _ => true | _ => false end.

Definition json_of_block (b : Block) : json :=
  match b with
  | BlockStr s => JStr s
  | BlockDict d => JDict d
  end.

Definition json_of_content (c : Content) : json :=
  match c with
  | ContentStr s => JStr s
  | ContentBlocks bs => JList (map json_of_block bs)
  end.

Definition block_of_json (v : json) : option Block :=
  match v with
  | JStr s => Some (BlockStr s)
  | JDict d => Some (BlockDict d)
  | _ => None
  end.

Fixpoint blocks_of_json (vs : list json) : option (list Block) :=
  match vs with
  | [] => Some []
  | v :: vs' =>
      match block_of_json v, blocks_of_json vs' with
      | Some b, Some bs => Some (b :: bs)
      | _, _ => None
      end
  end.

Definition ValidationError : exn :=
  Exception "ValidationError" "Input should be a valid string or list".

(** Validation of the [content=] argument of a message constructor. *)
Definition validate_content (v : json) : result Content :=
  match v with
  | JStr s => Ok (ContentStr s)
  | JList vs =>
      match blocks_of_json vs with
      | Some bs => Ok (ContentBlocks bs)
      | None => Raise ValidationError
      end
  | _ => Raise ValidationError
  end.

(** *** Python operations on loaded JSON values *)

Definition KeyError (k : string) : exn := Exception "KeyError" k.
Definition TypeError (m : string) : exn := Exception "TypeError" m.

Fixpoint dict_get (d : list (string * json)) (k : string) : option json :=
  match d with
  | [] => None
  | (k', v) :: d' => if String.eqb k' k then Some v else dict_get d' k
  end.

(** [msg[k]] for a string key [k]. *)
Definition getitem (msg : json) (k : string) : result json :=
  match msg with
  | JDict d =>
      match dict_get d k with
      | Some v => Ok v
      | None => Raise (KeyError k)
      end
  | JList _ => Raise (TypeError "list indices must be integers or slices, not str")
  | JStr _ => Raise (TypeError "string indices must be integers")
  | _ => Raise (TypeError "object is not subscriptable")
  end.

(** [v == s] for a string literal [s]. *)
Definition eq_str (v : json) (s : string) : bool :=
  match v with
  | JStr s' => String.eqb s' s
  | _ => false
  end.

Fixpoint chars (s : string) : list json :=
  match s with
  | EmptyString => []
  | String c s' => JStr (String c EmptyString) :: chars s'
  end.

(** The items [for msg in v] visits. *)
Definition iterate (v : json) : result (list json) :=
  match v with
  | JList items => Ok items
  | JDict d => Ok (map (fun kv => JStr (fst kv)) d)
  | JStr s => Ok (chars s)
  | _ => Raise (TypeError "object is not iterable")
  end.

(** *** Conversational memory: the loops *)

(** The loop of [load_memory]: [messages] is the list built so far. *)
Fixpoint load_loop (messages : list Message) (history_dicts : list json)
  : result (list Message) :=
  match history_dicts with
  | [] => Ok messages
  | msg :: rest =>
      match getitem msg "type" with
      | Raise e => Raise e
      | Ok ty =>
          if eq_str ty "human" then
            match getitem msg "content" with
            | Raise e => Raise e
            | Ok c =>
                match validate_content c with
                | Raise e => Raise e
                | Ok c => load_loop (messages ++ [HumanMessage c]) rest
                end
            end
          else
            match getitem msg "type" with
            | Raise e => Raise e
            | Ok ty =>
                if eq_str ty "ai" then
                  match getitem msg "content" with
                  | Raise e => Raise e
                  | Ok c =>
                      match validate_content c with
                      | Raise e => Raise e
                      | Ok c => load_loop (messages ++ [AIMessage c]) rest
                      end
                  end
                else load_loop messages rest
            end
      end
  end.

(** The loop of [save_memory]. *)
Fixpoint save_loop (history_dicts : list json) (history_messages : list Message)
  : list json :=
  match history_messages with
  | [] => history_dicts
  | msg :: rest =>
      save_loop
        (history_dicts ++
           [JDict [("type", JStr (if is_HumanMessage msg then "human" else "ai"));
                   ("content", json_of_content (content msg))]])
        rest
  end.

(** *** Retrieved documents *)

Inductive MetaValue :=
| MetaNone
| MetaInt (z : Z)
| MetaStr (s : string).

Definition str_meta (v : MetaValue) : string :=
  match v with
  | MetaNone => "None"
  | MetaInt z => str_int z
  | MetaStr s => s
  end.

Record Document := {
  page_content : string;
  metadata : gmap string MetaValue
}.

Definition newline : string := String (ascii_of_nat 10) EmptyString.

(** [d.metadata.get(key, default)], formatted in an f-string. *)
Definition metadata_get_str (d : Document) (key default : string) : string :=
  match metadata d !! key with
  | Some v => str_meta v
  | None => default
  end.

Definition format_doc (d : Document) : string :=
  "--- Source (Page " +:+ metadata_get_str d "page_number" "N/A" +:+ ", " +:+
  "Type: " +:+ metadata_get_str d "type" "text" +:+ ") ---" +:+ newline +:+
  page_content d.

(** [sep.join(parts)] *)
Fixpoint join (sep : string) (parts : list string) : string :=
  match parts with
  | [] => ""
  | [p] => p
  | p :: rest => p +:+ sep +:+ join sep rest
  end.

Definition format_docs (docs : list Document) : string :=
  join (newline +:+ newline) (map format_doc docs).

(** *** Paths ([pathlib], POSIX flavour) *)

(** [s.split(sep)] for a one-character separator. *)
Fixpoint split_from (sep : ascii) (s cur : string) : list string :=
  match s with
  | EmptyString => [str_rev cur]
  | String c s' =>
      if Ascii.eqb c sep then str_rev cur :: split_from sep s' EmptyString
      else split_from sep s' (String c cur)
  end.

Definition split (sep : ascii) (s : string) : list string :=
  split_from sep s EmptyString.

(** [s.lstrip(c)] for a one-character [c]. *)
Fixpoint lstrip_char (c : ascii) (s : string) : string :=
  match s with
  | EmptyString => EmptyString
  | String d s' => if Ascii.eqb d c then lstrip_char c s' else s
  end.

(** [splitroot]: the root of a path string and the rest.  The root is
    empty for a relative path, "//" after exactly two leading slashes and
    "/" after any other number of them. *)
Definition splitroot (part : string) : string * string :=
  match part with
  | String c _ =>
      if Ascii.eqb c "/" then
        let stripped_part := lstrip_char "/" part in
        if Nat.eqb (String.length part - String.length stripped_part) 2
        then ("//", stripped_part)
        else ("/", stripped_part)
      else ("", part)
  | EmptyString => ("", part)
  end.

(** A parsed path: its root and its components.  Empty components and
    "." components are dropped when a string is parsed; ".." is kept. *)
Record PurePath := {
  root : string;
  parts : list string
}.

Definition kept_component (x : string) : bool :=
  negb (String.eqb x "") && negb (String.eqb x ".").

(** [Path(part)] for one string. *)
Definition parse_path (part : string) : PurePath :=
  let (root, rel) := splitroot part in
  {| root := root; parts := List.filter kept_component (split "/" rel) |}.

(** [self / key] for a string [key]: an absolute [key] replaces [self]. *)
Definition joinpath (self : PurePath) (key : string) : PurePath :=
  let child := parse_path key in
  if str_truthy (root child) then child
  else {| root := root self; parts := parts self ++ parts child |}.

(** [str(path)], the string handed to the operating system. *)
Definition path_str (p : PurePath) : string :=
  if str_truthy (root p) then root p +:+ join "/" (parts p)
  else
    match parts p with
    | [] => "."
    | _ :: _ => join "/" (parts p)
    end.

(** *** Conversational memory: the session files *)

Definition SESSION_DIR : PurePath := parse_path "./chat_sessions".

(** [SESSION_DIR / f"{session_id}.json"] *)
Definition session_file (session_id : string) : PurePath :=
  joinpath SESSION_DIR (session_id +:+ ".json").

(** *** The external services of a query run

    The model server and the vector database, with one state [Backend].
    [connect] is the body of the first [try] block of [main] (the two
    model clients, the database client, the vector store and its
    retriever); [retrieve] is the retriever with its [k]; [llm_invoke]
    is the chat model followed by the string output parser.

    The file system, with state [Disk].  Each operation takes the path
    string and returns a value or raises, as the operating system
    decides: [Path_exists] is [Path.exists()], [read_json] is
    [open(path, 'r')] followed by [json.load], [write_json] is
    [open(path, 'w')] followed by [json.dump(doc, f, indent=2)], and
    [Path_mkdir] is [Path.mkdir(exist_ok=...)]. *)
Class Services := {
  Backend : Type;
  Disk : Type;
  connect : Backend -> result unit * Backend;
  retrieve : nat -> string -> Backend -> result (list Document) * Backend;
  llm_invoke : list Message -> Backend -> result string * Backend;
  Path_exists : string -> Disk -> result bool;
  read_json : string -> Disk -> result json;
  write_json : string -> json -> Disk -> result unit * Disk;
  Path_mkdir : string -> bool -> Disk -> result unit * Disk
}.

(** What the memory store relies on from the file system: a file that was
    written without an exception exists and reads back as the document
    written; a write that raises has failed at [open], before the file
    was touched. *)
Class LawfulDisk `{S : Services} : Prop := {
  write_then_read :
    forall path doc d d',
      write_json path doc d = (Ok tt, d') ->
      Path_exists path d' = Ok true /\ read_json path d' = Ok doc;
  failed_write_changes_nothing :
    forall path doc d d' e,
      write_json path doc d = (Raise e, d') -> d' = d
}.

Record Args := {
  question : string;
  summarize : bool;
  session_id : option string
}.

(** The dictionary the chain returns. *)
Record ChainResult := {
  res_question : string;
  res_chat_history : list Message;
  res_context : string;
  res_summary : string;
  res_answer : string
}.

Section Query.
Context `{S : Services}.

Record World := {
  backend : Backend;
  disk : Disk
}.

Definition on_backend {A} (f : Backend -> result A * Backend) : M World A :=
  fun w =>
    let (r, b) := f (backend w) in
    (r, {| backend := b; disk := disk w |}).

Definition on_disk {A} (f : Disk -> result A * Disk) : M World A :=
  fun w =>
    let (r, d) := f (disk w) in
    (r, {| backend := backend w; disk := d |}).

(** The module-level [SESSION_DIR.mkdir(exist_ok=True)]. *)
Definition module_init : M World unit :=
  on_disk (Path_mkdir (path_str SESSION_DIR) true).

(** [load_memory] on a disk: the existence test, the read and the loop. *)
Definition read_memory (d : Disk) (session_id : string)
  : result (list Message) :=
  let session_file := path_str (session_file session_id) in
  match Path_exists session_file d with
  | Raise e => Raise e
  | Ok false => Ok []
  | Ok true =>
      match read_json session_file d with
      | Raise e => Raise e
      | Ok history_dicts =>
          match iterate history_dicts with
          | Raise e => Raise e
          | Ok items => load_loop [] items
          end
      end
  end.

Definition load_memory (session_id : string) : M World (list Message) :=
  fun w => (read_memory (disk w) session_id, w).

(** [save_memory] on a disk: the loop, then the write. *)
Definition write_memory (d : Disk) (session_id : string)
    (history_messages : list Message) : result unit * Disk :=
  let session_file := path_str (session_file session_id) in
  let history_dicts := save_loop [] history_messages in
  write_json session_file (JList history_dicts) d.

Definition save_memory (session_id : string)
    (history_messages : list Message) : M World unit :=
  on_disk (fun d => write_memory d session_id history_messages).

Definition summarizer_prompt (context : string) : list Message :=
  [ HumanMessage (ContentStr (
      "Concisely summarize the following context, which was retrieved to answer a user's question. "
      +:+ "Focus on the key facts, formulas, and definitions."
      +:+ newline +:+ newline +:+ "CONTEXT:" +:+ newline +:+ context)) ].

Definition rag_prompt (chat_history : list Message)
    (context question : string) : list Message :=
  [ OtherMessage "SystemMessage" (ContentStr (
      "You are an expert assistant for a 10th-grade mathematics textbook. "
      +:+ "Answer the user's question based *only* on the following context. "
      +:+ "If the context does not contain the answer, state that. "
      +:+ "When possible, cite the page number from the source metadata.")) ]
  ++ chat_history ++
  [ HumanMessage (ContentStr (
      "CONTEXT:" +:+ newline +:+ context +:+ newline +:+ newline
      +:+ "QUESTION:" +:+ newline +:+ question)) ].

(** [full_rag_chain.invoke({"question": args.question})] *)
Definition full_rag_chain (args : Args) (chat_history : list Message)
  : M World ChainResult :=
  let! docs := on_backend (retrieve 5 (question args)) in
  let context := format_docs docs in
  let! summary :=
    (if summarize args
     then on_backend (llm_invoke (summarizer_prompt context))
     else ret "N/A") in
  let! answer :=
    on_backend (llm_invoke (rag_prompt chat_history context (question args))) in
  ret {| res_question := question args;
         res_chat_history := chat_history;
         res_context := context;
         res_summary := summary;
         res_answer := answer |}.

(** [if args.session_id:] — the id when the test succeeds. *)
Definition session_given (args : Args) : option string :=
  match session_id args with
  | Some sid => if str_truthy sid then Some sid else None
  | None => None
  end.

(** Steps 1 to 5 of [main]: [None] when [main] has returned from the
    handler of the first [try] block. *)
Definition answer_question (args : Args)
  : M World (option (list Message * ChainResult)) :=
  let! connected :=
    try_except (do! on_backend connect in ret true) (fun _ => ret false) in
  if negb connected then ret None
  else
    let! chat_history :=
      match session_given args with
      | Some sid => load_memory sid
      | None => ret []
      end in
    let! result := full_rag_chain args chat_history in
    ret (Some (chat_history, result)).

(** Step 6 of [main]. *)
Definition persist (args : Args) (chat_history : list Message)
    (result : ChainResult) : M World unit :=
  match session_given args with
  | Some sid =>
      let chat_history :=
        chat_history ++ [HumanMessage (ContentStr (question args))] in
      let chat_history :=
        chat_history ++ [AIMessage (ContentStr (res_answer result))] in
      save_memory sid chat_history
  | None => ret tt
  end.

Definition main (args : Args) : M World unit :=
  let! answered := answer_question args in
  match answered with
  | None => ret tt
  | Some (chat_history, result) => persist args chat_history result
  end.

End Query.

End rag_query.

(* ===================================================================== *)
(** ** Vocabulary of the properties, and sample services *)
(* ===================================================================== *)

Module indexer_spec.
Import setup_pipeline.

(** [hasattr(el, 'image_bytes') and el.image_bytes] *)
Definition has_image_bytes (el : Element) : bool :=
  match image_bytes el with
  | Some (_ :: _) => true
  | _ => false
  end.

(** The kind name contains "Table". *)
Definition is_table (el : Element) : bool :=
  contains "Table" (element_type el).

Section Vocabulary.
Context `{S : Services}.

(** The summarization of [image_bytes] succeeds with [description]:
    decoding, downscaling, encoding and the model call all return. *)
Definition describes (image_bytes : list byte) (llm_vision : ChatOllama)
    (w : World) (description : string) (w' : World) : Prop :=
  exists img img' img_b64,
    Image_open image_bytes = Ok img /\
    Image_thumbnail img (1024, 1024)%nat = Ok img' /\
    encode_image_to_base64 img' = Ok img_b64 /\
    invoke llm_vision (InputMessages [summarize_message img_b64]) w
    = (Ok description, w').

(** A computation that does not touch the vector database: its state
    is unchanged and no call logged is a vector-store call. *)
Definition no_store_access {A} (m : M World A) : Prop :=
  forall w,
    qdrant (snd (m w)) = qdrant w /\
    exists cs,
      calls (snd (m w)) = calls w ++ cs /\
      Forall (fun c => is_vector_store_call c = false) cs.
End Vocabulary.

(** *** Sample services

    A model server that plays a script: each [invoke] takes the next
    scripted response, and raises once the script is used up.  An image
    decodes when its first byte is the PNG signature byte.  The vector
    database maps a collection name to its documents. *)
Definition ConnectionError : exn :=
  Exception "ConnectionError" "model server unreachable".
Definition UnidentifiedImageError : exn :=
  Exception "UnidentifiedImageError" "cannot identify image file".

Definition scripted_invoke (script : list (result string))
  : result string * list (result string) :=
  match script with
  | r :: script' => (r, script')
  | [] => (Raise ConnectionError, [])
  end.

Definition scripted_services (pdf_found : bool) (elements : list Element)
  : Services := {|
  Ollama := list (result string);
  QdrantDB := gmap string (list Document);
  PILImage := list byte;
  path_exists := fun _ => pdf_found;
  OllamaEmbeddings_init := fun _ _ o => (Ok tt, o);
  ChatOllama_init := fun _ _ o => (Ok tt, o);
  ChatOllama_invoke := fun _ _ o => scripted_invoke o;
  partition_pdf := fun _ _ _ _ => Ok elements;
  Image_open := fun bytes =>
    match bytes with
    | x89 :: _ => Ok bytes
    | _ => Raise UnidentifiedImageError
    end;
  Image_thumbnail := fun img _ => Ok img;
  Image_save := fun img _ => Ok img;
  b64encode := string_of_list_byte;
  Qdrant_from_documents := fun docs _ _ collection_name _ oq =>
    (Ok tt, (fst oq, <[collection_name := docs]> (snd oq)))
|}.

Definition elements_module : string := "unstructured.documents.elements".

Definition element (cls : string) (txt : string)
    (bytes : option (list byte)) (page : Z) (html : option string) : Element :=
  {| el_class := {| cls_module := elements_module; cls_name := cls |};
     text := txt;
     image_bytes := bytes;
     metadata := {| page_number := Some page; text_as_html := html |} |}.

Definition png_bytes : list byte := [x89; x50; x4e; x47].

Definition png_image : Element :=
  element "Image" "" (Some png_bytes) 2 None.

(** A table element with empty text and no HTML rendering. *)
Definition empty_table : Element := element "Table" "" None 3 None.

Definition html_table : Element :=
  element "Table" "a b" None 4 (Some "<table><tr><td>a</td><td>b</td></tr></table>").

Definition blank_title : Element :=
  element "Title" "  " None 1 None.

Definition paragraph : Element :=
  element "NarrativeText" "The sum of two numbers is called addition." None 1 None.

Definition llava : ChatOllama :=
  {| llm_model := config.IMAGE_SUMMARY_MODEL;
     llm_base_url := config.OLLAMA_BASE_URL |}.

Definition nomic : OllamaEmbeddings :=
  {| emb_model := config.TEXT_EMBEDDING_MODEL;
     emb_base_url := config.OLLAMA_BASE_URL |}.

(** A world of the sample services: the script of the model server, an
    empty vector database, no call issued yet. *)
Definition scripted_world (pdf_found : bool) (elements : list Element)
    (script : list (result string))
  : @World (scripted_services pdf_found elements) :=
  @Build_World (scripted_services pdf_found elements) script ∅ [].

(** The model server is unreachable: every [invoke] raises. *)
Definition offline_world :=
  scripted_world true [png_image; paragraph] [].

(** The PDF holds a blank title only; the server answers the test. *)
Definition blank_pdf_world :=
  scripted_world true [blank_title] [Ok "pong"].

(** The configured PDF path does not exist. *)
Definition missing_pdf_world :=
  scripted_world false [paragraph] [Ok "pong"].

(** [offline_world] after the failed attempt to describe [png_image]:
    the call to the model is logged. *)
Definition offline_world_attempted :=
  @Build_World (scripted_services true [png_image; paragraph]) [] ∅
    [ CallInvoke llava
        (InputMessages [summarize_message (string_of_list_byte png_bytes)]) ].

(** [blank_pdf_world] at the end of the element loop. *)
Definition blank_pdf_world_processed :=
  @Build_World (scripted_services true [blank_title]) [] ∅
    [ CallPathExists config.PDF_PATH;
      CallOllamaEmbeddings config.TEXT_EMBEDDING_MODEL config.OLLAMA_BASE_URL;
      CallChatOllama config.IMAGE_SUMMARY_MODEL config.OLLAMA_BASE_URL;
      CallInvoke llava (InputStr "test");
      CallPartitionPdf config.PDF_PATH ].

(** *** Vocabulary of the loop as a whole *)

(** The element gets a Record: an image with image bytes, a table, or
    another element whose text has a character that is not white space. *)
Definition keeps (el : Element) : bool :=
  if String.eqb (element_type el) "Image" then has_image_bytes el
  else if is_table el then true
  else negb (blank (text el)).

(** The element is an image that is sent to the vision model. *)
Definition is_summarized (el : Element) : bool :=
  String.eqb (element_type el) "Image" && has_image_bytes el.

(** The type label of the Record of an element. *)
Definition type_label (el : Element) : string :=
  if String.eqb (element_type el) "Image" then "image_summary"
  else if is_table el then "table"
  else element_type el.

(** The content of the Record of an element that is not an image. *)
Definition plain_content (el : Element) : string :=
  if is_table el then table_content el else text el.

Definition plain_record (el : Element) : Document :=
  mk_document (plain_content el) el (type_label el).

(** [d] is a Record of [el]: the configured source path, the page number
    and type label of the element and, unless the element is an image,
    its content. *)
Definition record_of (el : Element) (d : Document) : Prop :=
  md_source (doc_metadata d) = config.PDF_PATH /\
  md_page_number (doc_metadata d) = page_number (metadata el) /\
  md_type (doc_metadata d) = type_label el /\
  (element_type el <> "Image" -> page_content d = plain_content el).

(** [c] is a request to describe an image, sent to [llm]. *)
Definition is_summary_request (llm : ChatOllama) (c : Call) : Prop :=
  exists img_b64, c = CallInvoke llm (InputMessages [summarize_message img_b64]).

Section LoopVocabulary.
Context `{S : Services}.

(** Every call the computation logs satisfies [P]. *)
Definition logs_only {A} (P : Call -> Prop) (m : M World A) : Prop :=
  forall w,
    exists cs, calls (snd (m w)) = calls w ++ cs /\ Forall P cs.

(** The world once the existence test of the PDF is logged. *)
Definition after_path_check (w : World) : World :=
  {| ollama := ollama w; qdrant := qdrant w;
     calls := calls w ++ [CallPathExists config.PDF_PATH] |}.
End LoopVocabulary.

(** *** Sample services with faults

    As [scripted_services] with an existing PDF, except that the model
    clients cannot be created when [init_ok] is false, the partitioning
    raises when [partition_ok] is false and the vector database refuses
    the documents when [store_ok] is false. *)
Definition PartitionError : exn :=
  Exception "FileNotFoundError" "poppler not installed".
Definition StoreError : exn :=
  Exception "ResponseHandlingException" "vector database unreachable".

Definition faulty_services (init_ok partition_ok store_ok : bool)
    (elements : list Element) : Services := {|
  Ollama := list (result string);
  QdrantDB := gmap string (list Document);
  PILImage := list byte;
  path_exists := fun _ => true;
  OllamaEmbeddings_init := fun _ _ o =>
    (if init_ok then Ok tt else Raise ConnectionError, o);
  ChatOllama_init := fun _ _ o => (Ok tt, o);
  ChatOllama_invoke := fun _ _ o => scripted_invoke o;
  partition_pdf := fun _ _ _ _ =>
    if partition_ok then Ok elements else Raise PartitionError;
  Image_open := fun bytes =>
    match bytes with
    | x89 :: _ => Ok bytes
    | _ => Raise UnidentifiedImageError
    end;
  Image_thumbnail := fun img _ => Ok img;
  Image_save := fun img _ => Ok img;
  b64encode := string_of_list_byte;
  Qdrant_from_documents := fun docs _ _ collection_name _ oq =>
    if store_ok
    then (Ok tt, (fst oq, <[collection_name := docs]> (snd oq)))
    else (Raise StoreError, oq)
|}.

Definition faulty_world (init_ok partition_ok store_ok : bool)
    (elements : list Element) (script : list (result string))
  : @World (faulty_services init_ok partition_ok store_ok elements) :=
  @Build_World (faulty_services init_ok partition_ok store_ok elements)
    script ∅ [].

(** Bytes that do not decode as an image. *)
Definition junk_bytes : list byte := [x00; x01].

Definition junk_image : Element :=
  element "Image" "" (Some junk_bytes) 5 None.

(** An image element without image bytes, with text read from it. *)
Definition bare_image : Element :=
  element "Image" "Figure 1: a right triangle" None 2 None.

Definition text_only_pdf : list Element :=
  [blank_title; html_table; bare_image; paragraph].

Section SummaryVocabulary.
Context `{S : Services}.

(** The local part of [summarize_image]: decode, downscale to at most
    1024 by 1024, encode as PNG in base64.  No service is contacted. *)
Definition image_data (image_bytes : list byte) : result string :=
  match Image_open image_bytes with
  | Raise e => Raise e
  | Ok pil_image =>
      match Image_thumbnail pil_image (1024, 1024)%nat with
      | Raise e => Raise e
      | Ok pil_image => encode_image_to_base64 pil_image
      end
  end.

(** The computation returns a value from every world. *)
Definition never_raises {A} (m : M World A) : Prop :=
  forall w, exists a w', m w = (Ok a, w').
End SummaryVocabulary.

(** Worlds of the sample runs below. *)
Definition described_world :=
  scripted_world true [png_image] [Ok "A right triangle."].

Definition one_paragraph_world :=
  scripted_world true [paragraph] [Ok "pong"].

Definition no_store_world := faulty_world true true false [paragraph] [Ok "pong"].
Definition no_models_world := faulty_world false true true [paragraph] [Ok "pong"].
Definition no_poppler_world := faulty_world true false true [paragraph] [Ok "pong"].

End indexer_spec.

Module query_spec.
Import rag_query.

(** A turn of a session: a human or an assistant message. *)
Definition is_turn (msg : Message) : bool :=
  is_HumanMessage msg || is_AIMessage msg.

(** The dictionary [save_memory] stores for a message. *)
Definition stored_entry (msg : Message) : json :=
  JDict [("type", JStr (if is_HumanMessage msg then "human" else "ai"));
         ("content", json_of_content (content msg))].

(** The type tag of an entry of a stored array. *)
Definition tag_of (entry : json) : option json :=
  match entry with
  | JDict d => dict_get d "type"
  | _ => None
  end.

(** The tag is one [load_memory] recognizes. *)
Definition recognized (entry : json) : bool :=
  match tag_of entry with
  | Some ty => eq_str ty "human" || eq_str ty "ai"
  | None => false
  end.

(** An entry of a session array: an object with a type tag, which also
    holds a message content when its tag is recognized. *)
Definition session_entry (entry : json) : Prop :=
  exists d ty,
    entry = JDict d /\ dict_get d "type" = Some ty /\
    (recognized entry = true ->
     exists v c, dict_get d "content" = Some v /\ validate_content v = Ok c).

(** [msg] is the turn the entry stands for: same role, same content. *)
Inductive entry_turn : json -> Message -> Prop :=
| entry_turn_human d v c :
    dict_get d "type" = Some (JStr "human") ->
    dict_get d "content" = Some v -> validate_content v = Ok c ->
    entry_turn (JDict d) (HumanMessage c)
| entry_turn_ai d v c :
    dict_get d "type" = Some (JStr "ai") ->
    dict_get d "content" = Some v -> validate_content v = Ok c ->
    entry_turn (JDict d) (AIMessage c).

(** The two turns a run appends: the question and the answer. *)
Definition exchange (args : Args) (result : ChainResult) : list Message :=
  [ HumanMessage (ContentStr (question args));
    AIMessage (ContentStr (res_answer result)) ].

(** A computation that leaves the disk as it is. *)
Definition keeps_disk `{S : Services} {A} (m : M World A) : Prop :=
  forall w, disk (snd (m w)) = disk w.

(** *** A POSIX disk

    The file system of the sample runs: a tree of directories and files
    without symbolic links, in which every directory may be searched and
    written.  A node is found by its location, the list of names from
    the root; a file holds a JSON document or some other text. *)
Inductive FileText :=
| JsonText (doc : json)
| OtherText.

Inductive Node :=
| Dir
| File (text : FileText).

Record PosixDisk := {
  cwd : list string;
  nodes : list (list string * Node)
}.

Fixpoint same_loc (a b : list string) : bool :=
  match a, b with
  | [], [] => true
  | x :: a, y :: b => String.eqb x y && same_loc a b
  | _, _ => false
  end.

Fixpoint find_node (l : list (list string * Node)) (loc : list string)
    : option Node :=
  match l with
  | [] => None
  | (k, n) :: rest => if same_loc k loc then Some n else find_node rest loc
  end.

Fixpoint set_node (l : list (list string * Node)) (loc : list string)
    (n : Node) : list (list string * Node) :=
  match l with
  | [] => [(loc, n)]
  | (k, m) :: rest =>
      if same_loc k loc then (loc, n) :: rest
      else (k, m) :: set_node rest loc n
  end.

(** The root is a directory. *)
Definition node_at (d : PosixDisk) (loc : list string) : option Node :=
  match loc with
  | [] => Some Dir
  | _ => find_node (nodes d) loc
  end.

Definition put_node (d : PosixDisk) (loc : list string) (n : Node) : PosixDisk :=
  {| cwd := cwd d; nodes := set_node (nodes d) loc n |}.

Definition FileNotFoundError : exn :=
  Exception "FileNotFoundError" "[Errno 2] No such file or directory".
Definition FileExistsError : exn :=
  Exception "FileExistsError" "[Errno 17] File exists".
Definition NotADirectoryError : exn :=
  Exception "NotADirectoryError" "[Errno 20] Not a directory".
Definition IsADirectoryError : exn :=
  Exception "IsADirectoryError" "[Errno 21] Is a directory".
Definition NameTooLongError : exn :=
  Exception "OSError" "[Errno 36] File name too long".
Definition NullByteError : exn :=
  Exception "ValueError" "embedded null byte".
Definition JSONDecodeError : exn :=
  Exception "JSONDecodeError" "Expecting value".

(** The length of the UTF-8 encoding of a string of code points below
    256: two bytes from 128 on. *)
Fixpoint utf8_length (s : string) : nat :=
  match s with
  | EmptyString => 0
  | String c s' =>
      ((if nat_of_ascii c <? 128 then 1 else 2) + utf8_length s')%nat
  end.

Definition NAME_MAX : nat := 255.
Definition PATH_MAX : nat := 4096.

Definition has_null_byte (s : string) : bool := negb (lacks Ascii.zero s).

(** The components of a path string: empty ones are skipped. *)
Definition path_names (path : string) : list string :=
  List.filter (fun x => negb (String.eqb x "")) (split "/" path).

(** Walking through directories, one name at a time. *)
Fixpoint walk (d : PosixDisk) (loc : list string) (names : list string)
  : result (list string) :=
  match names with
  | [] => Ok loc
  | name :: rest =>
      if String.eqb name "." then walk d loc rest
      else if String.eqb name ".." then walk d (removelast loc) rest
      else if (NAME_MAX <? utf8_length name)%nat then Raise NameTooLongError
      else
        match node_at d (loc ++ [name]) with
        | Some Dir => walk d (loc ++ [name]) rest
        | Some (File _) => Raise NotADirectoryError
        | None => Raise FileNotFoundError
        end
  end.

(** The location a path names: every component but the last must lead
    through existing directories; the last need not exist. *)
Definition locate (d : PosixDisk) (path : string) : result (list string) :=
  if has_null_byte path then Raise NullByteError
  else if (PATH_MAX <=? utf8_length path)%nat then Raise NameTooLongError
  else if String.eqb path "" then Raise FileNotFoundError
  else
    let start := if String.prefix "/" path then [] else cwd d in
    match rev (path_names path) with
    | [] => Ok start
    | name :: before =>
        match walk d start (rev before) with
        | Raise e => Raise e
        | Ok loc =>
            if String.eqb name "." then Ok loc
            else if String.eqb name ".." then Ok (removelast loc)
            else if (NAME_MAX <? utf8_length name)%nat then Raise NameTooLongError
            else Ok (loc ++ [name])
        end
    end.

(** [os.stat] *)
Definition posix_stat (d : PosixDisk) (path : string) : result Node :=
  match locate d path with
  | Raise e => Raise e
  | Ok loc =>
      match node_at d loc with
      | Some n => Ok n
      | None => Raise FileNotFoundError
      end
  end.

(** The errors [Path.exists()] answers with [False]: a missing entry, a
    file where a directory is needed, a path that cannot be encoded. *)
Definition ignored_by_exists (e : exn) : bool :=
  String.eqb (exn_class e) "FileNotFoundError"
  || String.eqb (exn_class e) "NotADirectoryError"
  || String.eqb (exn_class e) "ValueError".

(** [Path.exists()] *)
Definition posix_exists (path : string) (d : PosixDisk) : result bool :=
  match posix_stat d path with
  | Ok _ => Ok true
  | Raise e => if ignored_by_exists e then Ok false else Raise e
  end.

(** [open(path, 'r')] and [json.load] *)
Definition posix_read_json (path : string) (d : PosixDisk) : result json :=
  match posix_stat d path with
  | Raise e => Raise e
  | Ok Dir => Raise IsADirectoryError
  | Ok (File (JsonText doc)) => Ok doc
  | Ok (File OtherText) => Raise JSONDecodeError
  end.

(** [open(path, 'w')] and [json.dump]: the file is created or replaced. *)
Definition posix_write_json (path : string) (doc : json) (d : PosixDisk)
  : result unit * PosixDisk :=
  match locate d path with
  | Raise e => (Raise e, d)
  | Ok loc =>
      match node_at d loc with
      | Some Dir => (Raise IsADirectoryError, d)
      | _ => (Ok tt, put_node d loc (File (JsonText doc)))
      end
  end.

(** [Path.mkdir(exist_ok=...)] *)
Definition posix_mkdir (path : string) (exist_ok : bool) (d : PosixDisk)
  : result unit * PosixDisk :=
  match locate d path with
  | Raise e => (Raise e, d)
  | Ok loc =>
      match node_at d loc with
      | Some Dir => if exist_ok then (Ok tt, d) else (Raise FileExistsError, d)
      | Some (File _) => (Raise FileExistsError, d)
      | None => (Ok tt, put_node d loc Dir)
      end
  end.

(** The working directory of the sample runs and, in it, the session
    directory the module creates when it is loaded. *)
Definition home : list string := ["srv"; "rag"].

Definition sessions_dir : list string := home ++ ["chat_sessions"].

Definition fresh_disk : PosixDisk :=
  {| cwd := home;
     nodes := [ (["srv"], Dir); (home, Dir); (sessions_dir, Dir) ] |}.

Definition with_file (d : PosixDisk) (name : string) (doc : json) : PosixDisk :=
  put_node d (sessions_dir ++ [name]) (File (JsonText doc)).

(** A backend that always answers; its state counts the calls served. *)
Definition sample_document : Document :=
  {| page_content := "The sum of two numbers is called addition.";
     metadata := {[ "page_number" := MetaInt 1; "type" := MetaStr "NarrativeText" ]} |}.

Definition counting_backend : Services := {|
  Backend := nat;
  Disk := PosixDisk;
  connect := fun n => (Ok tt, S n);
  retrieve := fun k q n => (Ok [sample_document], S n);
  llm_invoke := fun prompt n => (Ok ("answer " +:+ pretty n), S n);
  Path_exists := posix_exists;
  read_json := posix_read_json;
  write_json := posix_write_json;
  Path_mkdir := posix_mkdir
|}.

Definition fresh_world : @World counting_backend :=
  @Build_World counting_backend 0%nat fresh_disk.

Definition sample_turns : list Message :=
  [ HumanMessage (ContentStr "What is addition?");
    AIMessage (ContentStr "The sum of two numbers.") ].

(** A stored array with two foreign entries among two turns. *)
Definition mixed_array : list json :=
  [ JDict [("type", JStr "system"); ("content", JStr "be brief")];
    JDict [("type", JStr "human"); ("content", JStr "What is addition?")];
    JDict [("type", JInt 7)];
    JDict [("type", JStr "ai"); ("content", JStr "The sum of two numbers.")] ].

Definition mixed_world : @World counting_backend :=
  @Build_World counting_backend 0%nat
    (with_file fresh_disk "test1.json" (JList mixed_array)).

Definition first_args : Args :=
  {| question := "What is addition?"; summarize := false;
     session_id := Some "test1" |}.

Definition second_args : Args :=
  {| question := "And subtraction?"; summarize := true;
     session_id := Some "test1" |}.

(** A run whose [--session_id] argument is the empty string. *)
Definition empty_id_args : Args :=
  {| question := "What is addition?"; summarize := false;
     session_id := Some "" |}.

(** What the first run on [fresh_world] computes, and the world after
    its three backend calls (connect, retrieve, answer). *)
Definition first_result : ChainResult :=
  {| res_question := "What is addition?";
     res_chat_history := [];
     res_context := format_docs [sample_document];
     res_summary := "N/A";
     res_answer := "answer 2" |}.

Definition answered_world : @World counting_backend :=
  @Build_World counting_backend 3%nat fresh_disk.

(** The worlds the sample runs end in. *)
Definition saved_world : @World counting_backend :=
  @Build_World counting_backend 0%nat
    (with_file fresh_disk "test1.json" (JList (map stored_entry sample_turns))).

Definition persisted_world : @World counting_backend :=
  @Build_World counting_backend 3%nat
    (with_file fresh_disk "test1.json"
       (JList (map stored_entry (exchange first_args first_result)))).

(** *** Vocabulary of the further properties *)

(** The message [load_memory] rebuilds from what [save_memory] stores for
    [msg]: a human message stays one, any other becomes an assistant
    message with the same content. *)
Definition as_stored (msg : Message) : Message :=
  if is_HumanMessage msg then HumanMessage (content msg)
  else AIMessage (content msg).

(** The separator [format_docs] puts between two documents. *)
Definition docs_separator : string := newline +:+ newline.

(** A backend with faults: the connection fails when [connect_ok] is
    false, the retriever raises when [retrieve_ok] is false. *)
Definition BackendError : exn :=
  Exception "ConnectionError" "backend unreachable".

Definition faulty_backend (connect_ok retrieve_ok : bool) : Services := {|
  Backend := nat;
  Disk := PosixDisk;
  connect := fun n => (if connect_ok then Ok tt else Raise BackendError, S n);
  retrieve := fun k q n =>
    (if retrieve_ok then Ok [sample_document] else Raise BackendError, S n);
  llm_invoke := fun prompt n => (Ok ("answer " +:+ pretty n), S n);
  Path_exists := posix_exists;
  read_json := posix_read_json;
  write_json := posix_write_json;
  Path_mkdir := posix_mkdir
|}.

(** A session file whose second entry has no type tag. *)
Definition broken_array : list json :=
  [ JDict [("type", JStr "human"); ("content", JStr "What is addition?")];
    JDict [("content", JStr "The sum of two numbers.")];
    JDict [("type", JStr "ai"); ("content", JStr "never reached")] ].

Definition session_files : PosixDisk :=
  with_file (with_file fresh_disk "test1.json" (JList mixed_array))
    "broken.json" (JList broken_array).

Definition stored_world (connect_ok retrieve_ok : bool)
  : @World (faulty_backend connect_ok retrieve_ok) :=
  @Build_World (faulty_backend connect_ok retrieve_ok) 0%nat session_files.

Definition broken_args : Args :=
  {| question := "What is addition?"; summarize := false;
     session_id := Some "broken" |}.

Definition second_document : Document :=
  {| page_content := "a + b = b + a";
     metadata := {[ "page_number" := MetaInt 2 ]} |}.


(** *** Session ids the file system treats specially *)

Fixpoint repeat_char (c : ascii) (n : nat) : string :=
  match n with
  | O => EmptyString
  | S n' => String c (repeat_char c n')
  end.

(** An id of 251 characters: with ".json" the file name has 256 bytes. *)
Definition long_id : string := repeat_char "a" 251.

(** An id with a slash: its file lies in a directory [chat_sessions/a]. *)
Definition nested_id : string := "a/b".

Definition nested_args : Args :=
  {| question := "What is addition?"; summarize := false;
     session_id := Some nested_id |}.

End query_spec.

(* ===================================================================== *)
(** ** Facts about the string operations *)
(* ===================================================================== *)

Module py_facts.

Lemma blank_rev_onto (s acc : string) :
  blank (str_rev_onto s acc) = blank s && blank acc.
Proof.
  revert acc. induction s as [|c s IH]; intros acc; simpl; [reflexivity|].
  rewrite IH. simpl. destruct (isspace c), (blank s), (blank acc); reflexivity.
Qed.

Lemma blank_rev (s : string) : blank (str_rev s) = blank s.
Proof. unfold str_rev. rewrite blank_rev_onto. simpl. apply andb_true_r. Qed.

Lemma lstrip_blank (s : string) : blank s = true -> lstrip s = "".
Proof.
  induction s as [|c s IH]; simpl; [reflexivity|].
  destruct (isspace c); simpl; [exact IH | discriminate].
Qed.

Lemma lstrip_not_blank (s : string) :
  blank s = false -> str_truthy (lstrip s) = true /\ blank (lstrip s) = false.
Proof.
  induction s as [|c s IH]; simpl; [discriminate|].
  destruct (isspace c) eqn:Hc; simpl; [exact IH|].
  intros _. rewrite Hc. split; reflexivity.
Qed.

Lemma rev_onto_truthy (s acc : string) :
  str_truthy acc = true -> str_truthy (str_rev_onto s acc) = true.
Proof.
  revert acc. induction s as [|c s IH]; intros acc Hacc; simpl; [exact Hacc|].
  apply IH. reflexivity.
Qed.

Lemma rev_truthy (s : string) : str_truthy (str_rev s) = str_truthy s.
Proof.
  destruct s as [|c s]; [reflexivity|].
  unfold str_rev. simpl. apply rev_onto_truthy. reflexivity.
Qed.

(** [s.strip()] is true exactly when [s] has a character that is not
    white space. *)
Lemma strip_truthy (s : string) : str_truthy (strip s) = negb (blank s).
Proof.
  unfold strip, rstrip. rewrite rev_truthy.
  destruct (blank s) eqn:Hs; simpl.
  - rewrite (lstrip_blank s Hs). reflexivity.
  - destruct (lstrip_not_blank s Hs) as [_ Hb].
    rewrite <- blank_rev in Hb.
    apply (lstrip_not_blank _ Hb).
Qed.

Lemma prefix_refl (s : string) : String.prefix s s = true.
Proof.
  induction s as [|c s IH]; simpl; [reflexivity|].
  destruct (ascii_dec c c); [exact IH | congruence].
Qed.

Lemma contains_refl (s : string) : contains s s = true.
Proof. destruct s; cbn [contains]; rewrite prefix_refl; reflexivity. Qed.

(** An occurrence in [t] is an occurrence in [p +:+ t]. *)
Lemma contains_append_r (p s t : string) :
  contains s t = true -> contains s (p +:+ t) = true.
Proof.
  intros H. induction p as [|c p IH]; [exact H|].
  change (String c p +:+ t) with (String c (p +:+ t)).
  cbn [contains]. rewrite IH. apply orb_true_r.
Qed.

Lemma table_is_not_image (s : string) :
  contains "Table" s = true -> String.eqb s "Image" = false.
Proof.
  intros H. destruct (String.eqb_spec s "Image") as [->|]; [|reflexivity].
  vm_compute in H. discriminate.
Qed.

Lemma blank_truthy (s : string) : blank s = false -> s <> "".
Proof. intros H ->. discriminate. Qed.

Lemma append_cons (c : ascii) (s t : string) :
  String c s +:+ t = String c (s +:+ t).
Proof. reflexivity. Qed.

Lemma append_nil_r (s : string) : s +:+ "" = s.
Proof.
  induction s as [|c s IH]; [reflexivity|].
  rewrite append_cons, IH. reflexivity.
Qed.

Lemma split_last_from_lacks (sep : ascii) (b cur : string) :
  lacks sep b = true -> split_last_from sep b cur = str_rev_onto cur b.
Proof.
  revert cur. induction b as [|c b IH]; intros cur Hb; [reflexivity|].
  simpl in Hb. apply andb_true_iff in Hb as [Hc Hb]. simpl.
  destruct (Ascii.eqb c sep); [discriminate|]. rewrite (IH _ Hb). reflexivity.
Qed.

Lemma split_last_from_sep (sep : ascii) (a b cur : string) :
  split_last_from sep (a +:+ String sep b) cur = split_last_from sep b "".
Proof.
  revert cur. induction a as [|c a IH]; intros cur.
  - change ("" +:+ String sep b) with (String sep b). simpl.
    rewrite Ascii.eqb_refl. reflexivity.
  - rewrite append_cons. simpl. destruct (Ascii.eqb c sep); apply IH.
Qed.

Lemma split_last_from_prefix (sep : ascii) (p t cur : string) :
  exists cur', split_last_from sep (p +:+ t) cur = split_last_from sep t cur'.
Proof.
  revert cur. induction p as [|c p IH]; intros cur; [exists cur; reflexivity|].
  rewrite append_cons. simpl. destruct (Ascii.eqb c sep); apply IH.
Qed.

(** The last component of [p.m.b] is [b] when [b] has no separator. *)
Lemma split_last_qualified (sep : ascii) (p m b : string) :
  lacks sep b = true ->
  split_last sep (p +:+ m +:+ String sep b) = b.
Proof.
  intros Hb. unfold split_last.
  destruct (split_last_from_prefix sep p (m +:+ String sep b) "") as [cur ->].
  rewrite split_last_from_sep. apply (split_last_from_lacks sep b "" Hb).
Qed.

Lemma remove_char_append (c : ascii) (a b : string) :
  remove_char c (a +:+ b) = remove_char c a +:+ remove_char c b.
Proof.
  induction a as [|d a IH]; [reflexivity|].
  rewrite append_cons. simpl.
  destruct (Ascii.eqb d c); rewrite IH; reflexivity.
Qed.

Lemma remove_char_lacks (c : ascii) (s : string) :
  lacks c s = true -> remove_char c s = s.
Proof.
  induction s as [|d s IH]; simpl; [reflexivity|].
  intros H. apply andb_true_iff in H as [Hd Hs].
  destruct (Ascii.eqb d c); [discriminate|]. rewrite (IH Hs). reflexivity.
Qed.

Example strip_inner_space :
  strip (String (ascii_of_nat 9) "  a b  ") = "a b".
Proof. reflexivity. Qed.

Example strip_only_spaces : strip "   " = "".
Proof. reflexivity. Qed.

Example contains_table_chunk : contains "Table" "TableChunk" = true.
Proof. reflexivity. Qed.

End py_facts.

(* ===================================================================== *)
(** ** Properties of the indexer ([setup_pipeline.py]) *)
(* ===================================================================== *)

Module indexer_proofs.
Import setup_pipeline indexer_spec py_facts.

(** *** The kind name *)

(** X1. The string operations on [str(type(el))] yield the class name,
    for a class name without dot, quote or closing bracket. *)
Lemma element_type_class_name (el : Element) :
  let name := cls_name (el_class el) in
  lacks "." name = true -> lacks "'" name = true -> lacks ">" name = true ->
  element_type el = name.
Proof.
  intros name Hdot Hquote Hangle. unfold element_type, type_repr.
  fold name.
  change ("." +:+ name +:+ "'>") with (String "." (name +:+ "'>")).
  rewrite split_last_qualified.
  - rewrite !remove_char_append, !(remove_char_lacks _ name) by assumption.
    apply append_nil_r.
  - clear Hquote Hangle. induction name as [|c n IH]; [reflexivity|].
    simpl in Hdot |- *. apply andb_true_iff in Hdot as [-> Hn].
    exact (IH Hn).
Qed.

Example element_type_of_image : element_type png_image = "Image".
Proof. reflexivity. Qed.

Section WithServices.
Context `{S : Services}.

(** *** [summarize_image] *)

Lemma summarize_image_try_ok (b : list byte) llm w d w' :
  summarize_image_try b llm w = (Ok d, w') <-> describes b llm w d w'.
Proof.
  unfold summarize_image_try, describes, bind, lift, ret. split.
  - destruct (Image_open b) as [img|e] eqn:Hopen; [|discriminate].
    destruct (Image_thumbnail img (1024, 1024)%nat) as [img'|e] eqn:Hthumb;
      [|discriminate].
    destruct (encode_image_to_base64 img') as [b64|e] eqn:Henc; [|discriminate].
    destruct (invoke llm (InputMessages [summarize_message b64]) w)
      as [[d'|e] w1] eqn:Hinv; [|discriminate].
    intros [= <- <-]. exists img, img', b64. repeat split; assumption.
  - intros (img & img' & b64 & -> & -> & -> & ->). reflexivity.
Qed.

(** C3. [summarize_image] returns a string for every byte string, every
    model handle and every world: the description when decoding,
    downscaling, encoding and the model call all succeed, and the
    fixed fallback string when any of them raises. *)
Theorem summarize_image_never_raises (b : list byte) (llm : ChatOllama)
    (w : World) :
  exists s w',
    summarize_image b llm w = (Ok s, w') /\
    (describes b llm w s w' \/
     (s = "Failed to summarize image" /\
      ~ exists d w'', describes b llm w d w'')).
Proof.
  unfold summarize_image, try_except.
  destruct (summarize_image_try b llm w) as [[d|e] w1] eqn:Htry.
  - exists d, w1. split; [reflexivity|]. left.
    apply summarize_image_try_ok. exact Htry.
  - exists summarize_fallback, w1. split; [reflexivity|]. right.
    split; [reflexivity|]. intros (d & w'' & Hd).
    apply summarize_image_try_ok in Hd. congruence.
Qed.

(** *** The element loop *)

(** C2, as amended.  When the summarization of an image element with
    image bytes raises, the handler of [summarize_image] supplies the
    fallback string: the iteration appends one Record for that image,
    with the fallback string as content and type [image_summary], and
    the loop goes on with the remaining elements. *)
Theorem failed_summary_appends_fallback (llm : ChatOllama)
    (docs : list Document) (el : Element) (rest : list Element)
    (b : byte) (bs : list byte) (w w1 : World) (e : exn) :
  element_type el = "Image" ->
  image_bytes el = Some (b :: bs) ->
  summarize_image_try (b :: bs) llm w = (Raise e, w1) ->
  let record := mk_document "Failed to summarize image" el "image_summary" in
  process_element llm docs el w = (Ok (docs ++ [record]), w1) /\
  process_elements llm docs (el :: rest) w
  = process_elements llm (docs ++ [record]) rest w1.
Proof.
  intros Hty Hbytes Htry record.
  assert (Hel : process_element llm docs el w = (Ok (docs ++ [record]), w1)).
  { unfold process_element. rewrite Hty, Hbytes. cbn [String.eqb Ascii.eqb Bool.eqb].
    unfold bind, summarize_image, try_except. rewrite Htry. reflexivity. }
  split; [exact Hel|].
  cbn [process_elements]. unfold bind at 1. rewrite Hel. reflexivity.
Qed.

(** C1, as amended.  For an element whose kind name does not contain
    "Table", blank text and no image bytes mean that the iteration
    appends nothing: the loop goes on with the same list and world.  And
    for an element that is not an Image and is either not a Table or a
    Table with an HTML rendering, any Record the iteration appends has
    content that is not blank, hence not empty. *)
Theorem blank_element_dropped (llm : ChatOllama) (docs : list Document)
    (el : Element) (w : World) :
  (is_table el = false ->
   blank (text el) = true -> has_image_bytes el = false ->
   forall rest,
     process_elements llm docs (el :: rest) w
     = process_elements llm docs rest w) /\
  (element_type el <> "Image" ->
   is_table el = false \/ opt_str_truthy (text_as_html (metadata el)) = true ->
   process_element llm docs el w = (Ok docs, w) \/
   exists d,
     process_element llm docs el w = (Ok (docs ++ [d]), w) /\
     blank (page_content d) = false /\ page_content d <> "").
Proof.
  unfold is_table, has_image_bytes. split.
  - intros Htable Hblank Hbytes rest.
    cbn [process_elements]. unfold bind at 1, process_element.
    rewrite Htable, strip_truthy, Hblank. cbn [negb].
    destruct (String.eqb (element_type el) "Image"); [|reflexivity].
    destruct (image_bytes el) as [[|b bs]|]; [reflexivity|discriminate|reflexivity].
  - intros Hnot Hkind. unfold process_element.
    destruct (String.eqb_spec (element_type el) "Image") as [Heq|_];
      [contradiction|].
    destruct (contains "Table" (element_type el)) eqn:Htable.
    + destruct Hkind as [Hkind|Hhtml]; [discriminate|].
      right. eexists. split; [reflexivity|]. cbn [page_content mk_document].
      unfold table_content.
      destruct (text_as_html (metadata el)) as [[|c h]|]; try discriminate.
      split; [reflexivity | discriminate].
    + rewrite strip_truthy.
      destruct (blank (text el)) eqn:Hblank; cbn [negb]; [left; reflexivity|].
      right. eexists. split; [reflexivity|]. cbn [page_content mk_document].
      split; [exact Hblank | exact (blank_truthy _ Hblank)].
Qed.

(** C9. The iteration for a table element appends one Record of type
    [table].  When the metadata carries an HTML rendering (a non-empty
    [text_as_html]), the content is the page header followed by that
    HTML, so the HTML occurs in the content; the plain text is the
    content exactly when there is no HTML rendering. *)
Theorem table_record_prefers_html (llm : ChatOllama)
    (docs : list Document) (el : Element) (w : World) :
  is_table el = true ->
  exists d,
    process_element llm docs el w = (Ok (docs ++ [d]), w) /\
    md_type (doc_metadata d) = "table" /\
    (forall html,
       text_as_html (metadata el) = Some html -> html <> "" ->
       page_content d
       = "Table on page " +:+ str_opt_int (page_number (metadata el))
         +:+ ":" +:+ newline +:+ html /\
       contains html (page_content d) = true) /\
    (opt_str_truthy (text_as_html (metadata el)) = false ->
     page_content d = text el).
Proof.
  unfold is_table. intros Htable.
  exists (mk_document (table_content el) el "table").
  split; [|split; [reflexivity|split]].
  - unfold process_element.
    rewrite (table_is_not_image _ Htable), Htable. reflexivity.
  - intros html Hhtml Hne. cbn [page_content mk_document].
    unfold table_content. rewrite Hhtml.
    destruct html as [|c h]; [congruence|].
    split; [reflexivity|].
    do 4 apply contains_append_r. apply contains_refl.
  - cbn [page_content mk_document]. unfold table_content.
    destruct (text_as_html (metadata el)) as [[|c h]|];
      [reflexivity | discriminate | reflexivity].
Qed.

(** *** [main] and the vector database *)

Lemma no_store_ret {A} (a : A) : no_store_access (ret a).
Proof.
  intros w. split; [reflexivity|]. exists [].
  split; [symmetry; apply app_nil_r | constructor].
Qed.

Lemma no_store_lift {A} (r : result A) : no_store_access (lift r).
Proof.
  intros w. split; [reflexivity|]. exists [].
  split; [symmetry; apply app_nil_r | constructor].
Qed.

Lemma no_store_on_ollama {A} (f : Ollama -> result A * Ollama) :
  no_store_access (on_ollama f).
Proof.
  intros w. unfold on_ollama. destruct (f (ollama w)) as [r o].
  split; [reflexivity|]. exists [].
  split; [symmetry; apply app_nil_r | constructor].
Qed.

Lemma no_store_log (c : Call) :
  is_vector_store_call c = false -> no_store_access (log c).
Proof.
  intros Hc w. split; [reflexivity|]. exists [c].
  split; [reflexivity | repeat constructor; exact Hc].
Qed.

Lemma no_store_bind {A B} (m : M World A) (k : A -> M World B) :
  no_store_access m -> (forall a, no_store_access (k a)) ->
  no_store_access (bind m k).
Proof.
  intros Hm Hk w. unfold bind.
  destruct (Hm w) as (Hq & cs & Hcs & Hall).
  destruct (m w) as [[a|e] w1]; simpl in *; [|eauto].
  destruct (Hk a w1) as (Hq' & cs' & Hcs' & Hall').
  split; [congruence|]. exists (cs ++ cs').
  rewrite Hcs', Hcs, app_assoc. split; [reflexivity|].
  apply Forall_app; split; assumption.
Qed.

Lemma no_store_try {A} (m : M World A) (h : exn -> M World A) :
  no_store_access m -> (forall e, no_store_access (h e)) ->
  no_store_access (try_except m h).
Proof.
  intros Hm Hh w. unfold try_except.
  destruct (Hm w) as (Hq & cs & Hcs & Hall).
  destruct (m w) as [[a|e] w1]; simpl in *; [eauto|].
  destruct (Hh e w1) as (Hq' & cs' & Hcs' & Hall').
  split; [congruence|]. exists (cs ++ cs').
  rewrite Hcs', Hcs, app_assoc. split; [reflexivity|].
  apply Forall_app; split; assumption.
Qed.

Create HintDb store.
#[local] Hint Resolve no_store_ret no_store_lift no_store_on_ollama : store.

Ltac no_store_steps :=
  repeat first
    [ apply no_store_bind; [|intros ?]
    | apply no_store_try; [|intros ?]
    | apply no_store_log; reflexivity
    | solve [auto with store] ].

Lemma no_store_invoke llm input : no_store_access (invoke llm input).
Proof. unfold invoke. no_store_steps. Qed.

Lemma no_store_summarize_image b llm :
  no_store_access (summarize_image b llm).
Proof.
  unfold summarize_image, summarize_image_try.
  pose proof no_store_invoke. no_store_steps.
Qed.

Lemma no_store_process_element llm docs el :
  no_store_access (process_element llm docs el).
Proof.
  unfold process_element. pose proof no_store_summarize_image.
  destruct (String.eqb (element_type el) "Image").
  - destruct (image_bytes el) as [[|b bs]|]; no_store_steps.
  - destruct (contains "Table" (element_type el)); [no_store_steps|].
    destruct (str_truthy (strip (text el))); no_store_steps.
Qed.

Lemma no_store_process_elements llm els :
  forall docs, no_store_access (process_elements llm docs els).
Proof.
  induction els as [|el els IH]; intros docs; cbn [process_elements].
  - apply no_store_ret.
  - apply no_store_bind; [apply no_store_process_element | intros ?; apply IH].
Qed.

Lemma no_store_load_inputs : no_store_access load_inputs.
Proof.
  unfold load_inputs, Path_exists, try_or_return, init_models,
    new_OllamaEmbeddings, new_ChatOllama, call_partition_pdf.
  pose proof no_store_invoke.
  apply no_store_bind; [no_store_steps|intros found].
  destruct (negb found); [no_store_steps|].
  apply no_store_bind; [no_store_steps|intros [[emb llm]|]]; [|no_store_steps].
  apply no_store_bind; [no_store_steps|intros [els|]]; no_store_steps.
Qed.

Lemma no_store_build_documents : no_store_access build_documents.
Proof.
  unfold build_documents.
  apply no_store_bind; [apply no_store_load_inputs|].
  intros [[[emb llm] els]|]; [|apply no_store_ret].
  apply no_store_bind; [apply no_store_process_elements|].
  intros ?; apply no_store_ret.
Qed.

(** C7. When the run reaches the end of the element loop with an empty
    document list, [main] returns there: the world it ends in is the
    world after the loop, in which the vector database is as it was
    before the run and no logged call is a vector-store call. *)
Theorem empty_run_leaves_store (w w1 : World) (embeddings : OllamaEmbeddings) :
  build_documents w = (Ok (Some (embeddings, [])), w1) ->
  main w = (Ok tt, w1) /\
  qdrant w1 = qdrant w /\
  exists cs,
    calls w1 = calls w ++ cs /\
    Forall (fun c => is_vector_store_call c = false) cs.
Proof.
  intros Hbuilt. split.
  - unfold main, bind. rewrite Hbuilt. reflexivity.
  - pose proof (no_store_build_documents w) as Hno.
    rewrite Hbuilt in Hno. exact Hno.
Qed.

(** C8. When the configured PDF path does not exist, [main] returns
    after the existence test: that test is the only external call of
    the run, so no model is initialized or invoked and no vector-store
    call is made, and the model server and the vector database are as
    they were. *)
Theorem missing_pdf_aborts_first (w : World) :
  path_exists config.PDF_PATH = false ->
  exists w' cs,
    main w = (Ok tt, w') /\
    ollama w' = ollama w /\ qdrant w' = qdrant w /\
    calls w' = calls w ++ cs /\
    cs = [CallPathExists config.PDF_PATH] /\
    Forall (fun c => is_model_call c = false /\
                     is_vector_store_call c = false) cs.
Proof.
  intros Hmissing.
  exists {| ollama := ollama w; qdrant := qdrant w;
            calls := calls w ++ [CallPathExists config.PDF_PATH] |},
         [CallPathExists config.PDF_PATH].
  split; [|repeat split; try reflexivity; repeat constructor].
  unfold main, build_documents, load_inputs, Path_exists, bind, log, modify, ret.
  cbn. rewrite Hmissing. reflexivity.
Qed.

End WithServices.

(** *** The properties on sample runs *)

Lemma failed_summary_appends_fallback_witness :
  (element_type png_image = "Image" /\
   image_bytes png_image = Some (x89 :: [x50; x4e; x47]) /\
   summarize_image_try (x89 :: [x50; x4e; x47]) llava offline_world
   = (Raise ConnectionError, offline_world_attempted)) /\
  let record := mk_document "Failed to summarize image" png_image "image_summary" in
  process_element llava [] png_image offline_world
  = (Ok ([] ++ [record]), offline_world_attempted) /\
  process_elements llava [] (png_image :: [paragraph]) offline_world
  = process_elements llava ([] ++ [record]) [paragraph] offline_world_attempted.
Proof.
  refine ((fun H1 H2 H3 =>
             conj (conj H1 (conj H2 H3))
                  (failed_summary_appends_fallback llava [] png_image
                     [paragraph] _ _ offline_world _ _ H1 H2 H3)) _ _ _).
  - reflexivity.
  - reflexivity.
  - vm_compute. reflexivity.
Defined.

(** C2 as stated fails.  With the model server unreachable, the
    summarization of [png_image] raises inside [summarize_image], and the
    loop still adds a Record for that image: its content is the fallback
    string. *)
Lemma failed_summary_still_recorded :
  summarize_image_try png_bytes llava offline_world
  = (Raise ConnectionError, offline_world_attempted) /\
  fst (process_elements llava [] [png_image] offline_world)
  = Ok [ {| page_content := "Failed to summarize image";
            doc_metadata := {| md_source := "data/jemh109.pdf";
                               md_page_number := Some 2%Z;
                               md_type := "image_summary" |} |} ].
Proof. split; vm_compute; reflexivity. Qed.

Lemma blank_element_dropped_witness :
  (forall rest,
     process_elements llava [] (blank_title :: rest) blank_pdf_world
     = process_elements llava [] rest blank_pdf_world) /\
  (process_element llava [] html_table blank_pdf_world = (Ok [], blank_pdf_world) \/
   exists d,
     process_element llava [] html_table blank_pdf_world
     = (Ok ([] ++ [d]), blank_pdf_world) /\
     blank (page_content d) = false /\ page_content d <> "").
Proof.
  split.
  - apply (proj1 (blank_element_dropped llava [] blank_title blank_pdf_world));
      reflexivity.
  - apply (proj2 (blank_element_dropped llava [] html_table blank_pdf_world)).
    + discriminate.
    + right. reflexivity.
Defined.

(** C1 as stated fails.  [empty_table] has empty text, no HTML rendering
    and no image bytes, and the loop produces a Record for it, whose
    content is the empty string. *)
Lemma empty_table_yields_empty_record :
  blank (text empty_table) = true /\
  has_image_bytes empty_table = false /\
  process_elements llava [] [empty_table] offline_world
  = (Ok [ {| page_content := "";
             doc_metadata := {| md_source := "data/jemh109.pdf";
                                md_page_number := Some 3%Z;
                                md_type := "table" |} |} ],
     offline_world).
Proof. repeat split; vm_compute; reflexivity. Qed.

Lemma table_record_prefers_html_witness :
  is_table html_table = true /\
  exists d,
    process_element llava [] html_table offline_world
    = (Ok ([] ++ [d]), offline_world) /\
    md_type (doc_metadata d) = "table" /\
    (forall html,
       text_as_html (metadata html_table) = Some html -> html <> "" ->
       page_content d
       = "Table on page " +:+ str_opt_int (page_number (metadata html_table))
         +:+ ":" +:+ newline +:+ html /\
       contains html (page_content d) = true) /\
    (opt_str_truthy (text_as_html (metadata html_table)) = false ->
     page_content d = text html_table).
Proof.
  assert (H : is_table html_table = true) by reflexivity.
  split; [exact H|].
  exact (table_record_prefers_html llava [] html_table offline_world H).
Defined.

Lemma empty_run_leaves_store_witness :
  build_documents blank_pdf_world
  = (Ok (Some (nomic, [])), blank_pdf_world_processed) /\
  main blank_pdf_world = (Ok tt, blank_pdf_world_processed) /\
  qdrant blank_pdf_world_processed = qdrant blank_pdf_world /\
  exists cs,
    calls blank_pdf_world_processed = calls blank_pdf_world ++ cs /\
    Forall (fun c => is_vector_store_call c = false) cs.
Proof.
  refine ((fun H => conj H (empty_run_leaves_store blank_pdf_world
                              blank_pdf_world_processed nomic H)) _).
  vm_compute. reflexivity.
Defined.

Lemma missing_pdf_aborts_first_witness :
  @path_exists (scripted_services false [paragraph]) config.PDF_PATH = false /\
  exists w' cs,
    main missing_pdf_world = (Ok tt, w') /\
    ollama w' = ollama missing_pdf_world /\
    qdrant w' = qdrant missing_pdf_world /\
    calls w' = calls missing_pdf_world ++ cs /\
    cs = [CallPathExists config.PDF_PATH] /\
    Forall (fun c => is_model_call c = false /\
                     is_vector_store_call c = false) cs.
Proof.
  assert (H : @path_exists (scripted_services false [paragraph]) config.PDF_PATH
              = false) by reflexivity.
  split; [exact H|].
  exact (missing_pdf_aborts_first missing_pdf_world H).
Defined.

(** A full run of the sample services: the blank title is dropped, the
    image is described by the model, the table is taken from its HTML,
    and the three documents replace the collection. *)
Example sample_run_indexes_three_documents :
  let w := scripted_world true [blank_title; png_image; html_table; paragraph]
             [Ok "pong"; Ok "A right triangle."] in
  fst (main w) = Ok tt /\
  qdrant (snd (main w)) !! config.COLLECTION_NAME
  = Some [ mk_document "A right triangle." png_image "image_summary";
           mk_document (table_content html_table) html_table "table";
           mk_document (text paragraph) paragraph "NarrativeText" ].
Proof. split; vm_compute; reflexivity. Qed.

End indexer_proofs.

(* ===================================================================== *)
(** ** Properties of the conversational memory ([rag_query.py]) *)
(* ===================================================================== *)

Module query_proofs.
Import rag_query query_spec.

Lemma blocks_of_json_of_blocks (bs : list Block) :
  blocks_of_json (map json_of_block bs) = Some bs.
Proof.
  induction bs as [|b bs IH]; [reflexivity|].
  simpl. rewrite IH. destruct b; reflexivity.
Qed.

Lemma validate_json_of_content (c : Content) :
  validate_content (json_of_content c) = Ok c.
Proof.
  destruct c as [s|bs]; [reflexivity|].
  simpl. rewrite blocks_of_json_of_blocks. reflexivity.
Qed.

Lemma save_loop_app (acc : list json) (msgs : list Message) :
  save_loop acc msgs = acc ++ map stored_entry msgs.
Proof.
  revert acc. induction msgs as [|m msgs IH]; intros acc; simpl.
  - symmetry. apply app_nil_r.
  - rewrite IH. rewrite <- app_assoc. reflexivity.
Qed.

Lemma getitem_stored_type (m : Message) :
  getitem (stored_entry m) "type"
  = Ok (JStr (if is_HumanMessage m then "human" else "ai")).
Proof. reflexivity. Qed.

Lemma getitem_stored_content (m : Message) :
  getitem (stored_entry m) "content" = Ok (json_of_content (content m)).
Proof. reflexivity. Qed.

Lemma load_loop_stored (acc msgs : list Message) :
  Forall (fun m => is_turn m = true) msgs ->
  load_loop acc (map stored_entry msgs) = Ok (acc ++ msgs).
Proof.
  intros Hturns. revert acc.
  induction Hturns as [|m msgs Hm _ IH]; intros acc.
  - simpl. rewrite app_nil_r. reflexivity.
  - cbn [map load_loop].
    rewrite getitem_stored_type, getitem_stored_content, validate_json_of_content.
    destruct m as [c|c|cls c]; try discriminate Hm;
      cbn [is_HumanMessage eq_str content];
      cbv [String.eqb Ascii.eqb Bool.eqb];
      rewrite IH, <- app_assoc; reflexivity.
Qed.

Lemma eq_str_true (v : json) (s : string) :
  eq_str v s = true -> v = JStr s.
Proof.
  destruct v; try discriminate. simpl. intros H.
  apply String.eqb_eq in H. congruence.
Qed.

Lemma load_loop_session (entries : list json) :
  Forall session_entry entries ->
  forall acc,
  exists msgs,
    load_loop acc entries = Ok (acc ++ msgs) /\
    Forall2 entry_turn (List.filter recognized entries) msgs.
Proof.
  induction 1 as [|entry entries Hentry _ IH]; intros acc.
  - exists []. simpl. rewrite app_nil_r. split; [reflexivity | constructor].
  - destruct Hentry as (d & ty & -> & Hty & Hcontent).
    cbn [load_loop getitem List.filter]. rewrite Hty.
    unfold recognized in *. cbn [tag_of] in *. rewrite Hty in *.
    destruct (eq_str ty "human") eqn:Hhuman.
    + destruct (Hcontent eq_refl) as (v & c & Hv & Hc).
      rewrite Hv, Hc. cbn [orb].
      destruct (IH (acc ++ [HumanMessage c])) as (msgs & Hload & Hturns).
      exists (HumanMessage c :: msgs). rewrite Hload, <- app_assoc.
      split; [reflexivity|]. constructor; [|exact Hturns].
      apply eq_str_true in Hhuman. subst ty. econstructor; eassumption.
    + destruct (eq_str ty "ai") eqn:Hai; cbn [orb] in *.
      * destruct (Hcontent eq_refl) as (v & c & Hv & Hc).
        rewrite Hv, Hc.
        destruct (IH (acc ++ [AIMessage c])) as (msgs & Hload & Hturns).
        exists (AIMessage c :: msgs). rewrite Hload, <- app_assoc.
        split; [reflexivity|]. constructor; [|exact Hturns].
        apply eq_str_true in Hai. subst ty. econstructor; eassumption.
      * apply IH.
Qed.

Lemma bind_ok_inv {W A B} (m : M W A) (k : A -> M W B) w b w2 :
  bind m k w = (Ok b, w2) ->
  exists a w1, m w = (Ok a, w1) /\ k a w1 = (Ok b, w2).
Proof.
  unfold bind. destruct (m w) as [[a|e] w1]; intros H; [|discriminate].
  exists a, w1. split; [reflexivity | exact H].
Qed.

Lemma load_loop_turns (entries : list json) :
  forall acc msgs,
    load_loop acc entries = Ok msgs ->
    Forall (fun m => is_turn m = true) acc ->
    Forall (fun m => is_turn m = true) msgs.
Proof.
  induction entries as [|entry entries IH]; intros acc msgs Hload Hacc.
  - simpl in Hload. congruence.
  - simpl in Hload.
    repeat (case_match; try discriminate);
      (eapply IH; [exact Hload|]);
      try exact Hacc;
      (apply Forall_app; split; [exact Hacc | repeat constructor]).
Qed.


(** *** The POSIX disk keeps the contract of the file system *)

Lemma same_loc_eq (a b : list string) : same_loc a b = true <-> a = b.
Proof.
  revert b. induction a as [|x a IH]; intros [|y b]; cbn [same_loc];
    try (split; [discriminate | intros H; discriminate H]); [tauto|].
  rewrite andb_true_iff, String.eqb_eq, IH.
  split; [intros [-> ->]; reflexivity | intros H; injection H; auto].
Qed.

Lemma same_loc_refl (a : list string) : same_loc a a = true.
Proof. apply same_loc_eq. reflexivity. Qed.

Lemma same_loc_ne (a b : list string) : a <> b -> same_loc a b = false.
Proof.
  intros Hne. destruct (same_loc a b) eqn:E; [|reflexivity].
  apply same_loc_eq in E. contradiction.
Qed.

Lemma find_set_ne (l : list (list string * Node)) (loc loc' : list string)
    (n : Node) :
  loc <> loc' -> find_node (set_node l loc n) loc' = find_node l loc'.
Proof.
  intros Hne. induction l as [|[k m] l IH]; cbn [set_node find_node].
  - rewrite (same_loc_ne _ _ Hne). reflexivity.
  - destruct (same_loc k loc) eqn:E; cbn [find_node].
    + apply same_loc_eq in E. subst k.
      rewrite (same_loc_ne _ _ Hne). reflexivity.
    + rewrite IH. reflexivity.
Qed.

Lemma find_set_eq (l : list (list string * Node)) (loc : list string)
    (n : Node) :
  find_node (set_node l loc n) loc = Some n.
Proof.
  induction l as [|[k m] l IH]; cbn [set_node find_node].
  - rewrite same_loc_refl. reflexivity.
  - destruct (same_loc k loc) eqn:E; cbn [find_node].
    + rewrite same_loc_refl. reflexivity.
    + rewrite E. exact IH.
Qed.

Lemma node_at_put_ne (d : PosixDisk) (loc loc' : list string) (n : Node) :
  loc <> loc' -> node_at (put_node d loc n) loc' = node_at d loc'.
Proof.
  intros Hne. unfold node_at, put_node. cbn [nodes].
  destruct loc'; [reflexivity|].
  apply find_set_ne. exact Hne.
Qed.

Lemma node_at_put_eq (d : PosixDisk) (loc : list string) (n : Node) :
  loc <> [] -> node_at (put_node d loc n) loc = Some n.
Proof.
  intros Hne. unfold node_at, put_node. cbn [nodes].
  destruct loc; [contradiction|].
  apply find_set_eq.
Qed.

(** A new file does not change the way through the directories. *)
Lemma walk_put_file (d : PosixDisk) (at_loc : list string) (t : FileText)
    (names : list string) :
  node_at d at_loc <> Some Dir ->
  forall loc r,
    walk d loc names = Ok r ->
    walk (put_node d at_loc (File t)) loc names = Ok r.
Proof.
  intros Hfree. induction names as [|name rest IH]; intros loc r Hwalk;
    cbn [walk] in *; [exact Hwalk|].
  destruct (String.eqb name "."); [exact (IH _ _ Hwalk)|].
  destruct (String.eqb name ".."); [exact (IH _ _ Hwalk)|].
  destruct (NAME_MAX <? utf8_length name)%nat; [discriminate|].
  destruct (node_at d (loc ++ [name])) as [[|t']|] eqn:Hnode; try discriminate.
  rewrite node_at_put_ne, Hnode; [exact (IH _ _ Hwalk)|].
  intros Heq. apply Hfree. rewrite Heq. exact Hnode.
Qed.

Lemma locate_put_file (d : PosixDisk) (at_loc : list string) (t : FileText)
    (path : string) (loc : list string) :
  node_at d at_loc <> Some Dir ->
  locate d path = Ok loc ->
  locate (put_node d at_loc (File t)) path = Ok loc.
Proof.
  intros Hfree. unfold locate. cbn [put_node cwd].
  destruct (has_null_byte path); [discriminate|].
  destruct (PATH_MAX <=? utf8_length path)%nat; [discriminate|].
  destruct (String.eqb path ""); [discriminate|].
  destruct (rev (path_names path)) as [|name before]; [exact (fun H => H)|].
  destruct (walk d (if String.prefix "/" path then [] else cwd d) (rev before))
    as [dir|e] eqn:Hwalk; [|discriminate].
  rewrite (walk_put_file d at_loc t _ Hfree _ _ Hwalk). exact (fun H => H).
Qed.

Lemma posix_write_then_read (path : string) (doc : json) (d d' : PosixDisk) :
  posix_write_json path doc d = (Ok tt, d') ->
  posix_exists path d' = Ok true /\ posix_read_json path d' = Ok doc.
Proof.
  unfold posix_write_json.
  destruct (locate d path) as [loc|e] eqn:Hloc; [|discriminate].
  assert (Hwritten : node_at d loc <> Some Dir ->
            (Ok tt, put_node d loc (File (JsonText doc))) = (Ok tt, d') ->
            posix_exists path d' = Ok true /\ posix_read_json path d' = Ok doc).
  { intros Hfree [= <-].
    assert (Hne : loc <> []) by (intros ->; apply Hfree; reflexivity).
    unfold posix_exists, posix_read_json, posix_stat.
    rewrite (locate_put_file d loc _ path loc Hfree Hloc).
    rewrite (node_at_put_eq d loc _ Hne). split; reflexivity. }
  destruct (node_at d loc) as [[|t]|] eqn:Hnode; [discriminate | |];
    apply Hwritten; discriminate.
Qed.

Lemma posix_failed_write (path : string) (doc : json) (d d' : PosixDisk)
    (e : exn) :
  posix_write_json path doc d = (Raise e, d') -> d' = d.
Proof.
  unfold posix_write_json.
  destruct (locate d path) as [loc|e']; [|congruence].
  destruct (node_at d loc) as [[|t]|]; congruence.
Qed.

Lemma counting_backend_lawful : @LawfulDisk counting_backend.
Proof. split; [exact posix_write_then_read | exact posix_failed_write]. Qed.

Lemma faulty_backend_lawful (connect_ok retrieve_ok : bool) :
  @LawfulDisk (faulty_backend connect_ok retrieve_ok).
Proof. split; [exact posix_write_then_read | exact posix_failed_write]. Qed.

(** *** [load_memory] and [save_memory] *)

Section WithServices.
Context `{S : Services}.

Lemma read_memory_turns (d : Disk) sid msgs :
  read_memory d sid = Ok msgs ->
  Forall (fun m => is_turn m = true) msgs.
Proof.
  unfold read_memory. intros H.
  destruct (Path_exists _ d) as [[|]|e]; try discriminate.
  - destruct (read_json _ d) as [doc|e]; [|discriminate].
    destruct (iterate doc) as [items|e]; [|discriminate].
    apply (load_loop_turns items [] msgs H). constructor.
  - inversion H. constructor.
Qed.

(** C5, as amended.  When the existence test of the session file answers
    that there is no such file, [load_memory] returns the empty history:
    it does not raise, it reads nothing, and the world is as it was. *)
Theorem load_memory_missing_file (sid : string) (w : World) :
  Path_exists (path_str (session_file sid)) (disk w) = Ok false ->
  load_memory sid w = (Ok [], w).
Proof.
  intros Hnone. unfold load_memory, read_memory. rewrite Hnone. reflexivity.
Qed.

(** C10. When the array of a session file holds entries whose type tag
    is neither "human" nor "ai", [load_memory] returns a value (it
    does not raise) and that value consists of the turns of the
    recognized entries only, in their order in the file. *)
Theorem load_memory_skips_foreign_tags (sid : string)
    (entries : list json) (w : World) :
  Path_exists (path_str (session_file sid)) (disk w) = Ok true ->
  read_json (path_str (session_file sid)) (disk w) = Ok (JList entries) ->
  Forall session_entry entries ->
  exists msgs,
    load_memory sid w = (Ok msgs, w) /\
    Forall2 entry_turn (List.filter recognized entries) msgs.
Proof.
  intros Hfound Hfile Hentries.
  destruct (load_loop_session entries Hentries []) as (msgs & Hload & Hturns).
  exists msgs. split; [|exact Hturns].
  unfold load_memory, read_memory. rewrite Hfound, Hfile. cbn [iterate].
  rewrite Hload. reflexivity.
Qed.

(** *** A computation that leaves the disk alone *)

Lemma keeps_disk_ret {A} (a : A) : keeps_disk (ret a).
Proof. intros w. reflexivity. Qed.

Lemma keeps_disk_on_backend {A} (f : Backend -> result A * Backend) :
  keeps_disk (on_backend f).
Proof.
  intros w. unfold on_backend. destruct (f (backend w)). reflexivity.
Qed.

Lemma keeps_disk_bind {A B} (m : M World A) (k : A -> M World B) :
  keeps_disk m -> (forall a, keeps_disk (k a)) -> keeps_disk (bind m k).
Proof.
  intros Hm Hk w. unfold bind. specialize (Hm w).
  destruct (m w) as [[a|e] w1]; simpl in *; [|exact Hm].
  rewrite (Hk a w1). exact Hm.
Qed.

Lemma keeps_disk_try {A} (m : M World A) (h : exn -> M World A) :
  keeps_disk m -> (forall e, keeps_disk (h e)) -> keeps_disk (try_except m h).
Proof.
  intros Hm Hh w. unfold try_except. specialize (Hm w).
  destruct (m w) as [[a|e] w1]; simpl in *; [exact Hm|].
  rewrite (Hh e w1). exact Hm.
Qed.

Lemma keeps_disk_load_memory sid : keeps_disk (load_memory sid).
Proof. intros w. reflexivity. Qed.

Create HintDb files.
#[local] Hint Resolve keeps_disk_ret keeps_disk_on_backend
  keeps_disk_load_memory : files.

Lemma keeps_disk_full_rag_chain args hist :
  keeps_disk (full_rag_chain args hist).
Proof.
  unfold full_rag_chain.
  repeat (apply keeps_disk_bind; [|intros ?]); auto with files.
  destruct (summarize args); auto with files.
Qed.

Lemma keeps_disk_connecting :
  keeps_disk
    (try_except (do! on_backend connect in ret true) (fun _ => ret false)).
Proof.
  apply keeps_disk_try; [|intros ?; apply keeps_disk_ret].
  apply keeps_disk_bind; [|intros ?]; auto with files.
Qed.

Lemma keeps_disk_answer_question (args : Args) :
  keeps_disk (answer_question args).
Proof.
  unfold answer_question.
  apply keeps_disk_bind; [apply keeps_disk_connecting|].
  intros connected. destruct (negb connected); [apply keeps_disk_ret|].
  apply keeps_disk_bind.
  { destruct (session_given args);
      [apply keeps_disk_load_memory | apply keeps_disk_ret]. }
  intros history. apply keeps_disk_bind; [apply keeps_disk_full_rag_chain|].
  intros result. apply keeps_disk_ret.
Qed.

Lemma session_given_nonempty args sid :
  session_id args = Some sid -> sid <> "" -> session_given args = Some sid.
Proof.
  unfold session_given. intros -> Hne. destruct sid; [congruence | reflexivity].
Qed.

Lemma answer_question_inv args sid w w1 hist res :
  session_given args = Some sid ->
  answer_question args w = (Ok (Some (hist, res)), w1) ->
  disk w1 = disk w /\ read_memory (disk w) sid = Ok hist.
Proof.
  intros Hsid Hrun.
  pose proof (keeps_disk_answer_question args w) as Hkeep.
  rewrite Hrun in Hkeep. cbn [snd] in Hkeep. split; [exact Hkeep|].
  unfold answer_question in Hrun.
  apply bind_ok_inv in Hrun as (connected & wa & Hconn & Hrun).
  assert (Hfa : disk wa = disk w).
  { pose proof (keeps_disk_connecting w) as Hk.
    rewrite Hconn in Hk. exact Hk. }
  destruct connected; simpl in Hrun; [|discriminate].
  rewrite Hsid in Hrun.
  apply bind_ok_inv in Hrun as (h & wb & Hload & Hrun).
  unfold load_memory in Hload. injection Hload as Hread <-.
  apply bind_ok_inv in Hrun as (r & wc & Hchain & Hrun).
  injection Hrun as <- <- <-.
  rewrite <- Hfa. exact Hread.
Qed.

Lemma main_after_answer args sid w w1 hist res :
  session_given args = Some sid ->
  answer_question args w = (Ok (Some (hist, res)), w1) ->
  main args w = save_memory sid (hist ++ exchange args res) w1.
Proof.
  intros Hsid Hrun.
  unfold main, bind. rewrite Hrun. unfold persist. rewrite Hsid.
  rewrite <- app_assoc. reflexivity.
Qed.

Section Lawful.
Context {L : LawfulDisk}.

Lemma read_after_write (d d' : Disk) sid (turns : list Message) :
  Forall (fun m => is_turn m = true) turns ->
  write_memory d sid turns = (Ok tt, d') ->
  read_json (path_str (session_file sid)) d'
  = Ok (JList (map stored_entry turns)) /\
  read_memory d' sid = Ok turns.
Proof.
  intros Hturns Hwrite. unfold write_memory in Hwrite.
  destruct (write_then_read _ _ _ _ Hwrite) as [Hfound Hread].
  rewrite save_loop_app in Hread. cbn [app] in Hread.
  split; [exact Hread|].
  unfold read_memory. rewrite Hfound, Hread. cbn [iterate].
  apply (load_loop_stored [] turns Hturns).
Qed.

Lemma save_memory_ok_inv sid msgs (w w' : World) :
  save_memory sid msgs w = (Ok tt, w') ->
  backend w' = backend w /\ write_memory (disk w) sid msgs = (Ok tt, disk w').
Proof.
  unfold save_memory, on_disk.
  destruct (write_memory (disk w) sid msgs) as [r d]. intros [= -> <-].
  split; reflexivity.
Qed.

(** C4, as amended.  When [save_memory] returns for a session id and a
    sequence of human and assistant messages (the session file could be
    written), loading that id returns the same sequence: same length,
    same order, same role and content at each place. *)
Theorem save_load_roundtrip (sid : string) (turns : list Message)
    (w w' : World) :
  Forall (fun m => is_turn m = true) turns ->
  save_memory sid turns w = (Ok tt, w') ->
  load_memory sid w' = (Ok turns, w').
Proof.
  intros Hturns Hsave.
  destruct (save_memory_ok_inv _ _ _ _ Hsave) as [_ Hwrite].
  unfold load_memory.
  destruct (read_after_write _ _ _ _ Hturns Hwrite) as [_ ->]. reflexivity.
Qed.

(** C6, as amended.  Take a query run that is given a non-empty session
    id, gets through its answer chain ([answer_question] returns the
    loaded history [hist] and the chain result) and whose [save_memory]
    call returns.  [main] then returns, the history [hist] is what
    loading the session gave at the start of the run, the session file
    has been rewritten as a whole and holds the array for [hist]
    followed by the human turn with the question and the assistant turn
    with the answer, and loading the session returns that sequence.
    When there was no session file before such a run, a second such run
    with the same id leaves the four turns of the two exchanges, in
    chronological order. *)
Theorem query_run_persists (args : Args) (sid : string) (w w1 w2 : World)
    (hist : list Message) (res : ChainResult) :
  session_id args = Some sid -> sid <> "" ->
  answer_question args w = (Ok (Some (hist, res)), w1) ->
  save_memory sid (hist ++ exchange args res) w1 = (Ok tt, w2) ->
  main args w = (Ok tt, w2) /\
  load_memory sid w = (Ok hist, w) /\
  read_json (path_str (session_file sid)) (disk w2)
  = Ok (JList (map stored_entry (hist ++ exchange args res))) /\
  load_memory sid w2 = (Ok (hist ++ exchange args res), w2) /\
  (Path_exists (path_str (session_file sid)) (disk w) = Ok false ->
   forall args' hist' res' w3 w4,
     session_id args' = Some sid ->
     answer_question args' w2 = (Ok (Some (hist', res')), w3) ->
     save_memory sid (hist' ++ exchange args' res') w3 = (Ok tt, w4) ->
     main args' w2 = (Ok tt, w4) /\
     load_memory sid w4
     = (Ok (exchange args res ++ exchange args' res'), w4)).
Proof.
  intros Hid Hne Hrun Hsave.
  pose proof (session_given_nonempty _ _ Hid Hne) as Hsid.
  destruct (answer_question_inv _ _ _ _ _ _ Hsid Hrun) as [Hdisk Hread].
  pose proof (read_memory_turns _ _ _ Hread) as Hturns.
  assert (Hex : forall a r, Forall (fun m => is_turn m = true) (exchange a r))
    by (intros; repeat constructor).
  assert (Hall : Forall (fun m => is_turn m = true) (hist ++ exchange args res))
    by (apply Forall_app; split; [exact Hturns | apply Hex]).
  destruct (save_memory_ok_inv _ _ _ _ Hsave) as [_ Hwrite].
  destruct (read_after_write _ _ _ _ Hall Hwrite) as [Hfile Hloaded].
  split; [rewrite (main_after_answer _ _ _ _ _ _ Hsid Hrun); exact Hsave|].
  split; [unfold load_memory; rewrite Hread; reflexivity|].
  split; [exact Hfile|].
  split; [unfold load_memory; rewrite Hloaded; reflexivity|].
  intros Hnone args' hist' res' w3 w4 Hid' Hrun' Hsave'.
  pose proof (session_given_nonempty _ _ Hid' Hne) as Hsid'.
  destruct (answer_question_inv _ _ _ _ _ _ Hsid' Hrun') as [_ Hread'].
  assert (hist = []) as ->.
  { unfold read_memory in Hread. rewrite Hnone in Hread. congruence. }
  rewrite Hloaded in Hread'. injection Hread' as <-.
  split; [rewrite (main_after_answer _ _ _ _ _ _ Hsid' Hrun'); exact Hsave'|].
  destruct (save_memory_ok_inv _ _ _ _ Hsave') as [_ Hwrite'].
  assert (Hall' : Forall (fun m => is_turn m = true)
                   (([] ++ exchange args res) ++ exchange args' res'))
    by (apply Forall_app; split; [apply Forall_app; split; [constructor|]|];
        apply Hex).
  destruct (read_after_write _ _ _ _ Hall' Hwrite') as [_ Hloaded'].
  unfold load_memory. rewrite Hloaded'. reflexivity.
Qed.

End Lawful.

End WithServices.

(** *** Running the sample services

    An equation between results of a run is settled component by
    component: the value, the state of the backend and the disk are each
    evaluated and compared. *)

Lemma pair_eq {A B : Type} (p : A * B) (a : A) (b : B) :
  fst p = a -> snd p = b -> p = (a, b).
Proof. destruct p. cbn. intros -> ->. reflexivity. Qed.

Lemma world_eq `{S : Services} (w w' : World) :
  backend w = backend w' -> disk w = disk w' -> w = w'.
Proof. destruct w, w'. cbn. intros -> ->. reflexivity. Qed.

Ltac by_running :=
  repeat match goal with
         | |- _ /\ _ => split
         | |- _ = (_, _) => apply pair_eq
         | |- @eq (@World _) _ _ => apply world_eq
         end;
  match goal with
  | |- ?x = ?y => first [ constr_eq x y; reflexivity | vm_compute; reflexivity ]
  end.

(** *** The properties on sample runs *)

Lemma load_memory_missing_file_witness :
  Path_exists (path_str (session_file "test1")) (disk fresh_world) = Ok false /\
  load_memory "test1" fresh_world = (Ok [], fresh_world).
Proof.
  refine ((fun H => conj H (load_memory_missing_file "test1" fresh_world H)) _).
  by_running.
Defined.

(** C5 as stated fails for a long session id.  The disk below holds three
    directories and no file, so the session file of [long_id] does not
    exist; its name has 256 bytes, the existence test raises instead of
    answering, and so does [load_memory]. *)
Lemma long_session_id_load_raises :
  nodes (disk fresh_world)
  = [ (["srv"], Dir); (home, Dir); (sessions_dir, Dir) ] /\
  String.length long_id = 251%nat /\
  load_memory long_id fresh_world = (Raise NameTooLongError, fresh_world).
Proof. by_running. Qed.

Lemma save_load_roundtrip_witness :
  (Forall (fun m => is_turn m = true) sample_turns /\
   save_memory "test1" sample_turns fresh_world = (Ok tt, saved_world)) /\
  load_memory "test1" saved_world = (Ok sample_turns, saved_world).
Proof.
  refine ((fun H1 H2 =>
             conj (conj H1 H2)
                  (@save_load_roundtrip counting_backend counting_backend_lawful
                     "test1" sample_turns fresh_world saved_world H1 H2)) _ _).
  - repeat constructor.
  - by_running.
Defined.

(** C4 as stated fails for a session id with a slash.  In a working
    directory that holds [chat_sessions] and nothing below it, the file
    of the id "a/b" lies in a directory that does not exist:
    [save_memory] raises, nothing is written, and [load_memory] then
    returns the empty history, not the turns. *)
Lemma nested_session_id_not_saved :
  path_str (session_file nested_id) = "chat_sessions/a/b.json" /\
  save_memory nested_id sample_turns fresh_world
  = (Raise FileNotFoundError, fresh_world) /\
  load_memory nested_id fresh_world = (Ok [], fresh_world).
Proof. by_running. Qed.

Lemma load_memory_skips_foreign_tags_witness :
  (Path_exists (path_str (session_file "test1")) (disk mixed_world) = Ok true /\
   read_json (path_str (session_file "test1")) (disk mixed_world)
   = Ok (JList mixed_array) /\
   Forall session_entry mixed_array) /\
  exists msgs,
    load_memory "test1" mixed_world = (Ok msgs, mixed_world) /\
    Forall2 entry_turn (List.filter recognized mixed_array) msgs.
Proof.
  assert (Hfound : Path_exists (path_str (session_file "test1")) (disk mixed_world)
                   = Ok true) by by_running.
  assert (Hfile : read_json (path_str (session_file "test1")) (disk mixed_world)
                  = Ok (JList mixed_array)) by by_running.
  assert (Hentries : Forall session_entry mixed_array).
  { unfold mixed_array.
    repeat (apply Forall_cons; split);
      [ eexists _, _; split; [reflexivity|]; split; [reflexivity|];
        intros Hr;
        first [ discriminate Hr | eexists _, _; split; reflexivity ] .. | ].
    apply Forall_nil_2. }
  split; [auto|].
  exact (load_memory_skips_foreign_tags "test1" mixed_array mixed_world
           Hfound Hfile Hentries).
Defined.

Lemma query_run_persists_witness :
  (session_id first_args = Some "test1" /\ "test1" <> "" /\
   answer_question first_args fresh_world
   = (Ok (Some ([], first_result)), answered_world) /\
   save_memory "test1" ([] ++ exchange first_args first_result) answered_world
   = (Ok tt, persisted_world)) /\
  main first_args fresh_world = (Ok tt, persisted_world) /\
  load_memory "test1" fresh_world = (Ok [], fresh_world) /\
  read_json (path_str (session_file "test1")) (disk persisted_world)
  = Ok (JList (map stored_entry ([] ++ exchange first_args first_result))) /\
  load_memory "test1" persisted_world
  = (Ok ([] ++ exchange first_args first_result), persisted_world) /\
  (Path_exists (path_str (session_file "test1")) (disk fresh_world) = Ok false ->
   forall args' hist' res' w3 w4,
     session_id args' = Some "test1" ->
     answer_question args' persisted_world = (Ok (Some (hist', res')), w3) ->
     save_memory "test1" (hist' ++ exchange args' res') w3 = (Ok tt, w4) ->
     main args' persisted_world = (Ok tt, w4) /\
     load_memory "test1" w4
     = (Ok (exchange first_args first_result ++ exchange args' res'), w4)).
Proof.
  assert (Hid : session_id first_args = Some "test1") by reflexivity.
  assert (Hne : "test1" <> "") by discriminate.
  assert (Hrun : answer_question first_args fresh_world
                 = (Ok (Some ([], first_result)), answered_world))
    by by_running.
  assert (Hsave : save_memory "test1" ([] ++ exchange first_args first_result)
                    answered_world = (Ok tt, persisted_world))
    by by_running.
  split; [auto|].
  exact (@query_run_persists counting_backend counting_backend_lawful
           first_args "test1" fresh_world answered_world persisted_world
           [] first_result Hid Hne Hrun Hsave).
Defined.

(** C6 as stated fails in two ways.  A run given [--session_id ""]
    connects, answers the question and ends without writing a session
    file: the disk is as it was and [chat_sessions/.json] does not
    exist.  A run given the id "a/b" answers the question and then
    raises in [save_memory], because [chat_sessions/a] does not exist;
    again nothing is written. *)
Lemma session_file_not_written :
  (session_id empty_id_args = Some "" /\
   answer_question empty_id_args fresh_world
   = (Ok (Some ([], first_result)), answered_world) /\
   main empty_id_args fresh_world = (Ok tt, answered_world) /\
   disk answered_world = disk fresh_world /\
   Path_exists (path_str (session_file "")) (disk answered_world) = Ok false) /\
  (session_id nested_args = Some "a/b" /\
   answer_question nested_args fresh_world
   = (Ok (Some ([], first_result)), answered_world) /\
   main nested_args fresh_world = (Raise FileNotFoundError, answered_world) /\
   disk answered_world = disk fresh_world).
Proof. by_running. Qed.

(** Two runs of the sample backend on a fresh world, with the same session
    id: the file ends with the four turns. *)
Example two_runs_leave_four_turns :
  read_memory
    (disk (snd (main second_args (snd (main first_args fresh_world)))))
    "test1"
  = Ok [ HumanMessage (ContentStr "What is addition?");
         AIMessage (ContentStr "answer 2");
         HumanMessage (ContentStr "And subtraction?");
         AIMessage (ContentStr "answer 6") ].
Proof. by_running. Qed.

(** A message that is not a [HumanMessage] is stored with the tag "ai",
    whatever its class: a system message comes back as an assistant
    message. *)
Example system_message_reloads_as_ai :
  @read_memory counting_backend
    (snd (@write_memory counting_backend fresh_disk "s"
            [OtherMessage "SystemMessage" (ContentStr "be brief")]))
    "s"
  = Ok [AIMessage (ContentStr "be brief")].
Proof. by_running. Qed.

(** Loading the module creates the session directory, and leaves it
    alone when it is there. *)
Example module_init_creates_session_dir :
  let empty_home : @World counting_backend :=
    @Build_World counting_backend 0%nat
      {| cwd := home; nodes := [ (["srv"], Dir); (home, Dir) ] |} in
  module_init empty_home = (Ok tt, fresh_world) /\
  module_init fresh_world = (Ok tt, fresh_world).
Proof. intros empty_home. by_running. Qed.

End query_proofs.


(* ===================================================================== *)
(** ** Further properties of the indexer *)
(* ===================================================================== *)

Module indexer_extras.
Import setup_pipeline indexer_spec py_facts.

Section WithServices.
Context `{S : Services}.

(** *** [summarize_image] and the model server *)

Lemma summarize_image_try_data (b : list byte) (llm : ChatOllama) (w : World) :
  summarize_image_try b llm w =
  match image_data b with
  | Ok img_b64 => invoke llm (InputMessages [summarize_message img_b64]) w
  | Raise e => (Raise e, w)
  end.
Proof.
  unfold summarize_image_try, image_data, bind, lift, ret.
  destruct (Image_open b) as [img|e]; [|reflexivity].
  destruct (Image_thumbnail img (1024, 1024)%nat) as [img'|e]; [|reflexivity].
  destruct (encode_image_to_base64 img') as [b64|e]; [|reflexivity].
  destruct (invoke llm (InputMessages [summarize_message b64]) w) as [[s|e] w'];
    reflexivity.
Qed.

Lemma summarize_image_unprepared (b : list byte) (llm : ChatOllama)
    (w : World) (e : exn) :
  image_data b = Raise e ->
  summarize_image b llm w = (Ok summarize_fallback, w).
Proof.
  intros Hdata. unfold summarize_image, try_except.
  rewrite summarize_image_try_data, Hdata. reflexivity.
Qed.

Lemma summarize_image_prepared (b : list byte) (llm : ChatOllama)
    (w : World) (img_b64 : string) :
  image_data b = Ok img_b64 ->
  let request := InputMessages [summarize_message img_b64] in
  let served := ChatOllama_invoke llm request (ollama w) in
  summarize_image b llm w =
    (Ok (match fst served with
         | Ok description => description
         | Raise _ => summarize_fallback
         end),
     {| ollama := snd served; qdrant := qdrant w;
        calls := calls w ++ [CallInvoke llm request] |}).
Proof.
  intros Hdata request served. unfold summarize_image, try_except.
  rewrite summarize_image_try_data, Hdata.
  unfold invoke, bind, log, modify, on_ollama. cbn [ollama qdrant calls].
  subst served. fold request.
  destruct (ChatOllama_invoke llm request (ollama w)) as [[s|e'] o]; reflexivity.
Qed.

(** X2. An image that cannot be prepared for the model (decoding,
    downscaling or PNG encoding raises) costs no request: [summarize_image]
    returns the fallback string and the world is exactly as before, with
    nothing logged and the model server untouched. *)
Theorem undecodable_image_costs_no_request (b : list byte) (llm : ChatOllama)
    (w : World) (e : exn) :
  image_data b = Raise e ->
  summarize_image b llm w = (Ok "Failed to summarize image", w).
Proof. exact (summarize_image_unprepared b llm w e). Qed.

(** X3. An image that is prepared as [img_b64] costs exactly one request:
    the log grows by the one call carrying the fixed instruction and the
    PNG data URL, the model server moves to the state that call leaves,
    the vector database is untouched, and the result is the answer of
    the model, or the fallback string when the call raises. *)
Theorem decodable_image_sends_one_request (b : list byte) (llm : ChatOllama)
    (w : World) (img_b64 : string) :
  image_data b = Ok img_b64 ->
  let request := InputMessages [summarize_message img_b64] in
  let served := ChatOllama_invoke llm request (ollama w) in
  summarize_image b llm w =
    (Ok (match fst served with
         | Ok description => description
         | Raise _ => "Failed to summarize image"
         end),
     {| ollama := snd served; qdrant := qdrant w;
        calls := calls w ++ [CallInvoke llm request] |}).
Proof. exact (summarize_image_prepared b llm w img_b64). Qed.

Lemma summarize_image_returns (b : list byte) (llm : ChatOllama) (w : World) :
  exists s w', summarize_image b llm w = (Ok s, w').
Proof.
  unfold summarize_image, try_except.
  destruct (summarize_image_try b llm w) as [[s|e] w']; eauto.
Qed.

Lemma summarize_image_requests (b : list byte) (llm : ChatOllama) (w : World) :
  exists cs,
    calls (snd (summarize_image b llm w)) = calls w ++ cs /\
    Forall (is_summary_request llm) cs /\ length cs <= 1.
Proof.
  destruct (image_data b) as [b64|e] eqn:Hdata.
  - rewrite (summarize_image_prepared b llm w b64 Hdata).
    eexists [_]. split; [reflexivity|]. split; [|reflexivity].
    repeat constructor. exists b64. reflexivity.
  - rewrite (summarize_image_unprepared b llm w e Hdata).
    exists []. split; [symmetry; apply app_nil_r|]. split; [constructor|].
    simpl. lia.
Qed.

(** *** The element loop as a whole *)

Lemma process_element_cases (llm : ChatOllama) (docs : list Document)
    (el : Element) (w : World) :
  (keeps el = true /\
   exists d w',
     process_element llm docs el w = (Ok (docs ++ [d]), w') /\ record_of el d) \/
  (keeps el = false /\ process_element llm docs el w = (Ok docs, w)).
Proof.
  unfold process_element, keeps, record_of, type_label, plain_content,
    is_table, has_image_bytes.
  destruct (String.eqb_spec (element_type el) "Image") as [Himage|Hother].
  - destruct (image_bytes el) as [[|b bs]|]; [right|left|right]; try (split; reflexivity).
    destruct (summarize_image_returns (b :: bs) llm w) as (s & w' & Hs).
    split; [reflexivity|]. unfold bind. rewrite Hs.
    eexists _, _. split; [reflexivity|].
    repeat split. intros Hne. contradiction.
  - destruct (contains "Table" (element_type el)).
    + left. split; [reflexivity|]. eexists _, _. split; [reflexivity|].
      repeat split.
    + rewrite strip_truthy. destruct (blank (text el)); cbn [negb].
      * right. split; reflexivity.
      * left. split; [reflexivity|]. eexists _, _. split; [reflexivity|].
        repeat split.
Qed.

Lemma process_elements_records (llm : ChatOllama) (elements : list Element)
    (docs : list Document) (w : World) :
  exists records w',
    process_elements llm docs elements w = (Ok (docs ++ records), w') /\
    Forall2 record_of (List.filter keeps elements) records.
Proof.
  revert docs w. induction elements as [|el els IH]; intros docs w.
  - exists [], w. cbn. rewrite app_nil_r. split; [reflexivity | constructor].
  - cbn [process_elements List.filter]. unfold bind at 1.
    destruct (process_element_cases llm docs el w)
      as [(Hkeep & d & w1 & Hel & Hrec) | (Hkeep & Hel)];
      rewrite Hel, Hkeep.
    + destruct (IH (docs ++ [d]) w1) as (records & w' & Hrest & Hall).
      exists (d :: records), w'. rewrite Hrest, <- app_assoc.
      split; [reflexivity | constructor; assumption].
    + apply IH.
Qed.

(** X4. The element loop never raises, whatever the services do.  It
    keeps the document list it starts from and appends one Record for
    each element that is an image with image bytes, a table, or an
    element with text that is not blank -- and for no other element --
    in the order of the elements; each Record carries the configured
    source path, the page number and type label of its element and,
    unless the element is an image, the content of that element. *)
Theorem loop_appends_kept_records (llm : ChatOllama) (elements : list Element)
    (docs : list Document) (w : World) :
  exists records w',
    process_elements llm docs elements w = (Ok (docs ++ records), w') /\
    Forall2 record_of (List.filter keeps elements) records.
Proof. exact (process_elements_records llm elements docs w). Qed.

(** X5. When no element is an image with image bytes, the loop contacts
    no service: the world is left exactly as it was, and the document
    list grows by the Records of the tables and of the non-blank text
    elements, in order, each built from the element alone. *)
Theorem loop_without_images_is_pure (llm : ChatOllama)
    (elements : list Element) (docs : list Document) (w : World) :
  Forall (fun el => is_summarized el = false) elements ->
  process_elements llm docs elements w
  = (Ok (docs ++ map plain_record (List.filter keeps elements)), w).
Proof.
  intros Hnone. revert docs.
  induction Hnone as [|el els Hel _ IH]; intros docs.
  - cbn. rewrite app_nil_r. reflexivity.
  - cbn [process_elements List.filter]. unfold bind at 1.
    assert (Hstep : process_element llm docs el w
                    = (Ok (if keeps el then docs ++ [plain_record el] else docs), w)).
    { revert Hel.
      unfold process_element, is_summarized, keeps, plain_record, type_label,
        plain_content, is_table, has_image_bytes.
      destruct (String.eqb (element_type el) "Image").
      - destruct (image_bytes el) as [[|b bs]|]; intros Hel;
          [reflexivity | discriminate | reflexivity].
      - intros _. destruct (contains "Table" (element_type el)); [reflexivity|].
        rewrite strip_truthy. destruct (blank (text el)); reflexivity. }
    rewrite Hstep. destruct (keeps el); rewrite IH; [|reflexivity].
    cbn [map]. rewrite <- app_assoc. reflexivity.
Qed.

Lemma process_element_requests (llm : ChatOllama) (docs : list Document)
    (el : Element) (w : World) :
  exists cs,
    calls (snd (process_element llm docs el w)) = calls w ++ cs /\
    Forall (is_summary_request llm) cs /\
    length cs <= (if is_summarized el then 1 else 0).
Proof.
  assert (Hnil : exists cs : list Call,
             calls w = calls w ++ cs /\ Forall (is_summary_request llm) cs /\
             length cs <= 0).
  { exists []. rewrite app_nil_r. repeat split; [constructor | reflexivity]. }
  unfold process_element, is_summarized, has_image_bytes.
  destruct (String.eqb (element_type el) "Image"); cbn [andb].
  - destruct (image_bytes el) as [[|b bs]|]; try exact Hnil.
    destruct (summarize_image_requests (b :: bs) llm w) as (cs & Hcs & Hall & Hlen).
    exists cs. unfold bind.
    destruct (summarize_image (b :: bs) llm w) as [[s|e] w']; auto.
  - destruct (contains "Table" (element_type el)); [exact Hnil|].
    destruct (str_truthy (strip (text el))); exact Hnil.
Qed.

(** X6. All the loop asks of the outside world is image descriptions:
    every call it logs is a description request to the vision model
    handle it was given, and there are at most as many requests as there
    are image elements with image bytes. *)
Theorem loop_logs_summary_requests (llm : ChatOllama) (elements : list Element)
    (docs : list Document) (w : World) :
  exists cs,
    calls (snd (process_elements llm docs elements w)) = calls w ++ cs /\
    Forall (is_summary_request llm) cs /\
    length cs <= length (List.filter is_summarized elements).
Proof.
  revert docs w. induction elements as [|el els IH]; intros docs w.
  - exists []. cbn. rewrite app_nil_r. repeat split; [constructor | reflexivity].
  - cbn [process_elements List.filter]. unfold bind at 1.
    destruct (process_element_requests llm docs el w) as (cs & Hcs & Hall & Hlen).
    destruct (process_element llm docs el w) as [[docs1|e] w1] eqn:Hel;
      cbn [snd] in Hcs.
    + destruct (IH docs1 w1) as (cs' & Hcs' & Hall' & Hlen').
      exists (cs ++ cs'). rewrite Hcs', Hcs, app_assoc.
      split; [reflexivity|]. split; [apply Forall_app; split; assumption|].
      rewrite length_app. destruct (is_summarized el); cbn [length]; lia.
    + exists cs. cbn [snd]. split; [exact Hcs|]. split; [exact Hall|].
      destruct (is_summarized el); cbn [length]; lia.
Qed.

(** *** [main]: which failures are absorbed, which escape *)

Lemma never_raises_ret {A} (a : A) : never_raises (ret a).
Proof. intros w. exists a, w. reflexivity. Qed.

Lemma never_raises_bind {A B} (m : M World A) (k : A -> M World B) :
  never_raises m -> (forall a, never_raises (k a)) -> never_raises (bind m k).
Proof.
  intros Hm Hk w. unfold bind. destruct (Hm w) as (a & w1 & ->). apply Hk.
Qed.

Lemma never_raises_try_or_return {A} (body : M World A) :
  never_raises (try_or_return body).
Proof.
  intros w. unfold try_or_return, try_except, bind, ret.
  destruct (body w) as [[a|e] w1]; eauto.
Qed.

Lemma never_raises_process_elements llm docs elements :
  never_raises (process_elements llm docs elements).
Proof.
  intros w.
  destruct (process_elements_records llm elements docs w) as (rs & w' & H & _).
  eauto.
Qed.

Lemma never_raises_load_inputs : never_raises load_inputs.
Proof.
  unfold load_inputs.
  apply never_raises_bind.
  { intros w. unfold Path_exists, bind, log, modify, ret. eauto. }
  intros found. destruct (negb found); [apply never_raises_ret|].
  apply never_raises_bind; [apply never_raises_try_or_return|].
  intros [[emb llm]|]; [|apply never_raises_ret].
  apply never_raises_bind; [apply never_raises_try_or_return|].
  intros [els|]; apply never_raises_ret.
Qed.

Lemma never_raises_build_documents : never_raises build_documents.
Proof.
  unfold build_documents.
  apply never_raises_bind; [apply never_raises_load_inputs|].
  intros [[[emb llm] els]|]; [|apply never_raises_ret].
  apply never_raises_bind; [apply never_raises_process_elements|].
  intros docs. apply never_raises_ret.
Qed.

(** X7. Everything up to the vector store is guarded: when [main] raises,
    the run has built a non-empty document list and the exception is the
    one [Qdrant.from_documents] raised on it.  A missing PDF, a model
    server that is down, a partitioning failure or a failed image
    description never make [main] raise. *)
Theorem main_raises_only_from_store (w w' : World) (e : exn) :
  main w = (Raise e, w') ->
  exists embeddings documents w1,
    build_documents w = (Ok (Some (embeddings, documents)), w1) /\
    documents <> [] /\
    from_documents documents embeddings config.QDRANT_URL
      config.COLLECTION_NAME true w1 = (Raise e, w').
Proof.
  intros Hmain. unfold main, bind in Hmain.
  destruct (never_raises_build_documents w) as (built & w1 & Hbuilt).
  rewrite Hbuilt in Hmain.
  destruct built as [[embeddings documents]|]; [|discriminate].
  destruct documents as [|d ds]; [discriminate|].
  exists embeddings, (d :: ds), w1. repeat split; [exact Hbuilt | discriminate | exact Hmain].
Qed.

(** X8. A run that builds a non-empty document list makes exactly one
    vector-store call, after everything else: it passes the whole list,
    the configured URL and collection name and [force_recreate=True], and
    the outcome of [main] is the outcome of that call, an exception
    included. *)
Theorem store_called_once_with_all_documents (w w1 : World)
    (embeddings : OllamaEmbeddings) (d : Document) (ds : list Document) :
  build_documents w = (Ok (Some (embeddings, d :: ds)), w1) ->
  let stored :=
    Qdrant_from_documents (d :: ds) embeddings config.QDRANT_URL
      config.COLLECTION_NAME true (ollama w1, qdrant w1) in
  main w =
    (fst stored,
     {| ollama := fst (snd stored); qdrant := snd (snd stored);
        calls := calls w1 ++
          [CallFromDocuments (d :: ds) config.QDRANT_URL config.COLLECTION_NAME] |})
  /\ qdrant w1 = qdrant w
  /\ exists cs,
       calls w1 = calls w ++ cs /\
       Forall (fun c => is_vector_store_call c = false) cs.
Proof.
  intros Hbuilt stored. split.
  - unfold main, bind. rewrite Hbuilt.
    unfold store_documents, from_documents, bind, log, modify.
    cbn [ollama qdrant calls]. subst stored.
    destruct (Qdrant_from_documents (d :: ds) embeddings config.QDRANT_URL
                config.COLLECTION_NAME true (ollama w1, qdrant w1))
      as [r [o q]]. reflexivity.
  - pose proof (indexer_proofs.no_store_build_documents w) as Hno.
    rewrite Hbuilt in Hno. exact Hno.
Qed.

Lemma load_inputs_after_check (w : World) :
  load_inputs w =
  (if negb (path_exists config.PDF_PATH) then ret None
   else
     let! models := try_or_return init_models in
     match models with
     | None => ret None
     | Some (embeddings, llm_vision) =>
         let! elements :=
           try_or_return
             (call_partition_pdf config.PDF_PATH "hi_res" true true) in
         match elements with
         | None => ret None
         | Some elements => ret (Some (embeddings, llm_vision, elements))
         end
     end) (after_path_check w).
Proof. reflexivity. Qed.

Lemma init_models_calls (w : World) :
  qdrant (snd (init_models w)) = qdrant w /\
  exists cs,
    calls (snd (init_models w)) = calls w ++ cs /\
    Forall (fun c => is_model_call c = true) cs.
Proof.
  unfold init_models, new_OllamaEmbeddings, new_ChatOllama, invoke,
    bind, log, modify, on_ollama, ret. cbn [ollama qdrant calls].
  destruct (OllamaEmbeddings_init _ _ (ollama w)) as [[[]|e] o1]; cbn.
  2:{ split; [reflexivity|]. eexists [_]. split; [reflexivity|].
      repeat constructor. }
  destruct (ChatOllama_init _ _ o1) as [[[]|e] o2]; cbn.
  2:{ split; [reflexivity|]. eexists [_; _].
      rewrite <- app_assoc. split; [reflexivity|]. repeat constructor. }
  destruct (ChatOllama_invoke _ _ o2) as [[s|e] o3]; cbn;
    (split; [reflexivity|]); eexists [_; _; _];
    rewrite <- !app_assoc; (split; [reflexivity|]); repeat constructor.
Qed.

(** X9. When the PDF exists and creating the model clients or the test
    call raises, [main] absorbs the exception and returns there: the PDF
    is not partitioned, the vector database is as it was, and after the
    existence test the run has issued model calls only. *)
Theorem init_failure_returns_early (w w1 : World) (e : exn) :
  path_exists config.PDF_PATH = true ->
  init_models (after_path_check w) = (Raise e, w1) ->
  main w = (Ok tt, w1) /\
  qdrant w1 = qdrant w /\
  exists cs,
    calls w1 = calls w ++ CallPathExists config.PDF_PATH :: cs /\
    Forall (fun c => is_model_call c = true) cs.
Proof.
  intros Hfound Hinit. split.
  - unfold main, build_documents. unfold bind at 1 2.
    rewrite load_inputs_after_check, Hfound. cbn [negb].
    unfold bind at 1, try_or_return, try_except. unfold bind at 1.
    rewrite Hinit. reflexivity.
  - destruct (init_models_calls (after_path_check w)) as (Hq & cs & Hcs & Hall).
    rewrite Hinit in Hq, Hcs. cbn [snd] in Hq, Hcs.
    split; [exact Hq|]. exists cs. split; [|exact Hall].
    rewrite Hcs. cbn [after_path_check calls]. rewrite <- app_assoc. reflexivity.
Qed.

(** X10. When the models are ready and the partitioning of the PDF
    raises, [main] absorbs the exception and returns right after that
    call: no image is described, no document is built, and the vector
    database is as it was. *)
Theorem partition_failure_returns_early (w w2 : World) (e : exn)
    (embeddings : OllamaEmbeddings) (llm_vision : ChatOllama) :
  path_exists config.PDF_PATH = true ->
  init_models (after_path_check w) = (Ok (embeddings, llm_vision), w2) ->
  partition_pdf config.PDF_PATH "hi_res" true true = Raise e ->
  main w =
    (Ok tt, {| ollama := ollama w2; qdrant := qdrant w2;
               calls := calls w2 ++ [CallPartitionPdf config.PDF_PATH] |}) /\
  qdrant w2 = qdrant w.
Proof.
  intros Hfound Hinit Hpart. split.
  - unfold main, build_documents. unfold bind at 1 2.
    rewrite load_inputs_after_check, Hfound. cbn [negb].
    unfold bind at 1, try_or_return at 1, try_except. unfold bind at 1.
    rewrite Hinit. cbn [ret].
    unfold bind at 1, try_or_return, try_except, call_partition_pdf.
    unfold bind at 1 2, log, modify, lift. rewrite Hpart. reflexivity.
  - destruct (init_models_calls (after_path_check w)) as (Hq & _).
    rewrite Hinit in Hq. exact Hq.
Qed.

(** X23. Every run makes at most one vector-store call, as its last
    call, and never with an empty document list: the calls of a run are
    calls that are not vector-store calls, followed by nothing or by the
    one call that stores a non-empty list in the configured collection. *)
Theorem store_call_comes_last (w : World) :
  exists cs tail,
    calls (snd (main w)) = calls w ++ cs ++ tail /\
    Forall (fun c => is_vector_store_call c = false) cs /\
    (tail = [] \/
     exists documents,
       documents <> [] /\
       tail = [CallFromDocuments documents config.QDRANT_URL
                 config.COLLECTION_NAME]).
Proof.
  destruct (never_raises_build_documents w) as (built & w1 & Hbuilt).
  destruct (indexer_proofs.no_store_build_documents w) as (_ & cs & Hcs & Hall).
  rewrite Hbuilt in Hcs. cbn [snd] in Hcs.
  assert (Hstop : main w = (Ok tt, w1) ->
            exists cs tail,
              calls (snd (main w)) = calls w ++ cs ++ tail /\
              Forall (fun c => is_vector_store_call c = false) cs /\
              (tail = [] \/
               exists documents,
                 documents <> [] /\
                 tail = [CallFromDocuments documents config.QDRANT_URL
                           config.COLLECTION_NAME])).
  { intros ->. exists cs, []. rewrite app_nil_r. auto. }
  destruct built as [[embeddings [|d ds]]|];
    try (apply Hstop; unfold main, bind; rewrite Hbuilt; reflexivity).
  exists cs, [CallFromDocuments (d :: ds) config.QDRANT_URL config.COLLECTION_NAME].
  split; [|split; [exact Hall|]].
  - unfold main, bind. rewrite Hbuilt.
    unfold store_documents, from_documents, bind, log, modify.
    cbn [ollama qdrant calls].
    destruct (Qdrant_from_documents (d :: ds) embeddings config.QDRANT_URL
                config.COLLECTION_NAME true (ollama w1, qdrant w1))
      as [r [o q]].
    cbn [snd calls]. rewrite Hcs, <- app_assoc. reflexivity.
  - right. exists (d :: ds). split; [discriminate | reflexivity].
Qed.

End WithServices.

(** *** The properties on sample runs *)

Lemma element_type_class_name_witness :
  (lacks "." "Image" = true /\ lacks "'" "Image" = true /\
   lacks ">" "Image" = true) /\
  element_type png_image = "Image".
Proof.
  refine ((fun H1 H2 H3 =>
             conj (conj H1 (conj H2 H3))
                  (indexer_proofs.element_type_class_name png_image H1 H2 H3))
            _ _ _); reflexivity.
Defined.

Lemma undecodable_image_costs_no_request_witness :
  @image_data (scripted_services true [png_image; paragraph]) junk_bytes
  = Raise UnidentifiedImageError /\
  summarize_image junk_bytes llava offline_world
  = (Ok "Failed to summarize image", offline_world).
Proof.
  refine ((fun H => conj H (undecodable_image_costs_no_request junk_bytes llava
                              offline_world UnidentifiedImageError H)) _).
  reflexivity.
Defined.

Lemma decodable_image_sends_one_request_witness :
  @image_data (scripted_services true [png_image]) png_bytes
  = Ok (string_of_list_byte png_bytes) /\
  let request :=
    InputMessages [summarize_message (string_of_list_byte png_bytes)] in
  let served := ChatOllama_invoke llava request (ollama described_world) in
  summarize_image png_bytes llava described_world =
    (Ok (match fst served with
         | Ok description => description
         | Raise _ => "Failed to summarize image"
         end),
     {| ollama := snd served; qdrant := qdrant described_world;
        calls := calls described_world ++ [CallInvoke llava request] |}).
Proof.
  refine ((fun H => conj H (decodable_image_sends_one_request png_bytes llava
                              described_world _ H)) _).
  reflexivity.
Defined.

Lemma loop_without_images_is_pure_witness :
  Forall (fun el => is_summarized el = false) text_only_pdf /\
  process_elements llava [] text_only_pdf offline_world
  = (Ok ([] ++ map plain_record (List.filter keeps text_only_pdf)), offline_world).
Proof.
  refine ((fun H => conj H (loop_without_images_is_pure llava text_only_pdf []
                              offline_world H)) _).
  repeat constructor.
Defined.

Lemma main_raises_only_from_store_witness :
  main no_store_world = (Raise StoreError, snd (main no_store_world)) /\
  exists embeddings documents w1,
    build_documents no_store_world = (Ok (Some (embeddings, documents)), w1) /\
    documents <> [] /\
    from_documents documents embeddings config.QDRANT_URL
      config.COLLECTION_NAME true w1
    = (Raise StoreError, snd (main no_store_world)).
Proof.
  refine ((fun H => conj H (main_raises_only_from_store no_store_world _ _ H)) _).
  vm_compute. reflexivity.
Defined.

Lemma store_called_once_with_all_documents_witness :
  build_documents one_paragraph_world
  = (Ok (Some (nomic, plain_record paragraph :: [])),
     snd (build_documents one_paragraph_world)) /\
  let w1 := snd (build_documents one_paragraph_world) in
  let stored :=
    Qdrant_from_documents (plain_record paragraph :: []) nomic config.QDRANT_URL
      config.COLLECTION_NAME true (ollama w1, qdrant w1) in
  main one_paragraph_world =
    (fst stored,
     {| ollama := fst (snd stored); qdrant := snd (snd stored);
        calls := calls w1 ++
          [CallFromDocuments (plain_record paragraph :: []) config.QDRANT_URL
             config.COLLECTION_NAME] |})
  /\ qdrant w1 = qdrant one_paragraph_world
  /\ exists cs,
       calls w1 = calls one_paragraph_world ++ cs /\
       Forall (fun c => is_vector_store_call c = false) cs.
Proof.
  refine ((fun H => conj H (store_called_once_with_all_documents
                              one_paragraph_world _ nomic _ _ H)) _).
  vm_compute. reflexivity.
Defined.

Lemma init_failure_returns_early_witness :
  (@path_exists (faulty_services false true true [paragraph]) config.PDF_PATH
   = true /\
   init_models (after_path_check no_models_world)
   = (Raise ConnectionError,
      snd (init_models (after_path_check no_models_world)))) /\
  let w1 := snd (init_models (after_path_check no_models_world)) in
  main no_models_world = (Ok tt, w1) /\
  qdrant w1 = qdrant no_models_world /\
  exists cs,
    calls w1 = calls no_models_world ++ CallPathExists config.PDF_PATH :: cs /\
    Forall (fun c => is_model_call c = true) cs.
Proof.
  refine ((fun H1 H2 => conj (conj H1 H2)
             (init_failure_returns_early no_models_world _ _ H1 H2)) _ _).
  - reflexivity.
  - vm_compute. reflexivity.
Defined.

Lemma partition_failure_returns_early_witness :
  (@path_exists (faulty_services true false true [paragraph]) config.PDF_PATH
   = true /\
   init_models (after_path_check no_poppler_world)
   = (Ok (nomic, llava),
      snd (init_models (after_path_check no_poppler_world))) /\
   @partition_pdf (faulty_services true false true [paragraph])
     config.PDF_PATH "hi_res" true true = Raise PartitionError) /\
  let w2 := snd (init_models (after_path_check no_poppler_world)) in
  main no_poppler_world =
    (Ok tt, {| ollama := ollama w2; qdrant := qdrant w2;
               calls := calls w2 ++ [CallPartitionPdf config.PDF_PATH] |}) /\
  qdrant w2 = qdrant no_poppler_world.
Proof.
  refine ((fun H1 H2 H3 => conj (conj H1 (conj H2 H3))
             (partition_failure_returns_early no_poppler_world _ _ _ _ H1 H2 H3))
            _ _ _).
  - reflexivity.
  - vm_compute. reflexivity.
  - reflexivity.
Defined.

End indexer_extras.


(* ===================================================================== *)
(** ** Further properties of the query script *)
(* ===================================================================== *)

Module query_extras.
Import rag_query query_spec py_facts.

(** *** String facts *)

Lemma append_assoc (a b c : string) : (a +:+ b) +:+ c = a +:+ (b +:+ c).
Proof.
  induction a as [|x a IH]; [reflexivity|].
  rewrite !append_cons, IH. reflexivity.
Qed.

Lemma length_append (a b : string) :
  String.length (a +:+ b) = (String.length a + String.length b)%nat.
Proof.
  induction a as [|x a IH]; [reflexivity|].
  rewrite append_cons. simpl. rewrite IH. reflexivity.
Qed.

Lemma append_cancel_l (p a b : string) : p +:+ a = p +:+ b -> a = b.
Proof.
  induction p as [|x p IH]; [exact (fun H => H)|].
  rewrite !append_cons. intros [= H]. exact (IH H).
Qed.

Lemma append_cancel_r (s a b : string) : a +:+ s = b +:+ s -> a = b.
Proof.
  revert b. induction a as [|x a IH]; intros [|y b] H.
  - reflexivity.
  - apply (f_equal String.length) in H.
    rewrite append_cons in H. cbn [String.length] in H.
    rewrite !length_append in H. cbn [String.length] in H. lia.
  - apply (f_equal String.length) in H.
    rewrite append_cons in H. cbn [String.length] in H.
    rewrite !length_append in H. cbn [String.length] in H. lia.
  - rewrite !append_cons in H. injection H as -> H. f_equal. exact (IH _ H).
Qed.

Lemma prefix_append (s t q : string) :
  String.prefix s t = true -> String.prefix s (t +:+ q) = true.
Proof.
  revert t. induction s as [|x s IH]; intros t H;
    [destruct (t +:+ q); reflexivity|].
  destruct t as [|y t]; [discriminate|].
  rewrite append_cons. simpl in *.
  destruct (ascii_dec x y); [exact (IH _ H) | discriminate].
Qed.

Lemma contains_append_l (s t q : string) :
  contains s t = true -> contains s (t +:+ q) = true.
Proof.
  induction t as [|y t IH]; intros H.
  - cbn [contains] in H. rewrite orb_false_r in H.
    destruct s; [|discriminate]. destruct q; reflexivity.
  - rewrite append_cons. cbn [contains] in *.
    apply orb_true_iff in H as [H|H]; apply orb_true_iff.
    + left. rewrite <- append_cons. apply prefix_append. exact H.
    + right. exact (IH H).
Qed.

(** *** The memory store *)

Lemma load_loop_stored_any (acc msgs : list Message) :
  load_loop acc (map stored_entry msgs) = Ok (acc ++ map as_stored msgs).
Proof.
  revert acc. induction msgs as [|m msgs IH]; intros acc.
  - simpl. rewrite app_nil_r. reflexivity.
  - cbn [map load_loop].
    rewrite query_proofs.getitem_stored_type,
      query_proofs.getitem_stored_content,
      query_proofs.validate_json_of_content.
    destruct m as [c|c|cls c];
      cbn [is_HumanMessage eq_str content as_stored];
      cbv [String.eqb Ascii.eqb Bool.eqb];
      rewrite IH, <- app_assoc; reflexivity.
Qed.

Lemma load_loop_app (pre rest : list json) :
  forall acc,
    load_loop acc (pre ++ rest) =
    match load_loop acc pre with
    | Ok messages => load_loop messages rest
    | Raise e => Raise e
    end.
Proof.
  induction pre as [|entry pre IH]; intros acc; [reflexivity|].
  cbn [app load_loop].
  destruct (getitem entry "type") as [ty|e]; [|reflexivity].
  destruct (eq_str ty "human"), (eq_str ty "ai"); try apply IH;
    (destruct (getitem entry "content") as [c|e]; [|reflexivity]);
    (destruct (validate_content c); [apply IH | reflexivity]).
Qed.

Lemma load_loop_length (entries : list json) :
  forall acc msgs,
    load_loop acc entries = Ok msgs ->
    length msgs <= length acc + length entries.
Proof.
  induction entries as [|entry entries IH]; intros acc msgs Hload.
  - simpl in Hload. injection Hload as <-. lia.
  - simpl in Hload.
    repeat (case_match; try discriminate);
      apply IH in Hload; rewrite ?length_app in Hload; cbn [length] in *; lia.
Qed.

(** Splitting after a leading "./" gives a "." component and the rest. *)
Lemma split_dot_slash (s : string) :
  split "/" (String "." (String "/" s)) = "." :: split "/" s.
Proof. reflexivity. Qed.

Lemma splitroot_relative (s : string) :
  String.prefix "/" s = false -> splitroot s = ("", s).
Proof.
  destruct s as [|c s]; [reflexivity|]. cbn [splitroot String.prefix].
  destruct (ascii_dec "/" c) as [<-|Hne].
  - destruct s; discriminate.
  - intros _. destruct (Ascii.eqb_spec c "/") as [->|_]; [contradiction|].
    reflexivity.
Qed.

Lemma prefix_slash_append (s t : string) :
  String.prefix "/" s = false -> String.prefix "/" t = false ->
  String.prefix "/" (s +:+ t) = false.
Proof.
  destruct s as [|c s]; [intros _ H; exact H|].
  intros H _. rewrite append_cons. cbn [String.prefix] in *.
  destruct (ascii_dec "/" c); [|reflexivity].
  destruct s; discriminate.
Qed.

Lemma session_file_dot_slash (sid : string) :
  String.prefix "/" sid = false ->
  session_file ("./" +:+ sid) = session_file sid.
Proof.
  intros Hrel. unfold session_file, joinpath.
  change (("./" +:+ sid) +:+ ".json")
    with (String "." (String "/" (sid +:+ ".json"))).
  assert (Hparse : parse_path (String "." (String "/" (sid +:+ ".json")))
                   = parse_path (sid +:+ ".json")).
  { unfold parse_path at 1. cbn [splitroot Ascii.eqb Bool.eqb].
    rewrite split_dot_slash. cbn [List.filter kept_component].
    unfold parse_path.
    rewrite splitroot_relative
      by (apply prefix_slash_append; [exact Hrel | reflexivity]).
    reflexivity. }
  rewrite Hparse. reflexivity.
Qed.

Section WithServices.
Context `{S : Services}.

(** X13. Session ids are not one-to-one with session files: the path is
    built by [pathlib], which drops "." components, so for every id that
    does not start with a slash, the id and the id prefixed by "./" name
    the same file, and loading or saving under either is the same
    operation on the disk. *)
Theorem dot_prefixed_id_names_same_file (sid : string) (msgs : list Message)
    (w : World) :
  String.prefix "/" sid = false ->
  path_str (session_file ("./" +:+ sid)) = path_str (session_file sid) /\
  load_memory ("./" +:+ sid) w = load_memory sid w /\
  save_memory ("./" +:+ sid) msgs w = save_memory sid msgs w.
Proof.
  intros Hrel. pose proof (session_file_dot_slash sid Hrel) as Hsame.
  unfold load_memory, save_memory, read_memory, write_memory.
  rewrite Hsame. repeat split.
Qed.

(** X14. Whatever array a session file holds, a history that
    [load_memory] returns consists of human and assistant messages only
    and is no longer than the array; the world is not changed. *)
Theorem loaded_history_is_bounded (sid : string) (entries : list json)
    (msgs : list Message) (w w' : World) :
  Path_exists (path_str (session_file sid)) (disk w) = Ok true ->
  read_json (path_str (session_file sid)) (disk w) = Ok (JList entries) ->
  load_memory sid w = (Ok msgs, w') ->
  w' = w /\
  Forall (fun m => is_turn m = true) msgs /\
  length msgs <= length entries.
Proof.
  intros Hfound Hfile Hload. unfold load_memory in Hload.
  injection Hload as Hread <-. split; [reflexivity|].
  split; [exact (query_proofs.read_memory_turns _ _ _ Hread)|].
  unfold read_memory in Hread. rewrite Hfound, Hfile in Hread.
  cbn [iterate] in Hread.
  apply load_loop_length in Hread. cbn [length] in Hread. lia.
Qed.

(** X15. A bad entry is not skipped: when the entries before it are
    session entries and reading its type tag raises (the entry is not an
    object, or has no "type" key), [load_memory] raises that exception
    and returns none of the turns read so far, whatever follows in the
    file. *)
Theorem untagged_entry_aborts_load (sid : string) (pre rest : list json)
    (bad : json) (err : exn) (w : World) :
  Path_exists (path_str (session_file sid)) (disk w) = Ok true ->
  read_json (path_str (session_file sid)) (disk w)
  = Ok (JList (pre ++ bad :: rest)) ->
  Forall session_entry pre ->
  getitem bad "type" = Raise err ->
  load_memory sid w = (Raise err, w).
Proof.
  intros Hfound Hfile Hpre Hbad. unfold load_memory, read_memory.
  rewrite Hfound, Hfile. cbn [iterate]. rewrite load_loop_app.
  destruct (query_proofs.load_loop_session pre Hpre []) as (msgs & -> & _).
  cbn [load_loop]. rewrite Hbad. reflexivity.
Qed.

Section Lawful.
Context {L : LawfulDisk}.

Lemma read_after_write_any (d d' : Disk) sid (msgs : list Message) :
  write_memory d sid msgs = (Ok tt, d') ->
  read_json (path_str (session_file sid)) d'
  = Ok (JList (map stored_entry msgs)) /\
  read_memory d' sid = Ok (map as_stored msgs).
Proof.
  intros Hwrite. unfold write_memory in Hwrite.
  destruct (write_then_read _ _ _ _ Hwrite) as [Hfound Hread].
  rewrite query_proofs.save_loop_app in Hread. cbn [app] in Hread.
  split; [exact Hread|].
  unfold read_memory. rewrite Hfound, Hread. cbn [iterate].
  apply (load_loop_stored_any [] msgs).
Qed.

(** X11. When [save_memory] returns for a list of messages of any
    classes, loading the session again returns a list of the same
    length with the same contents in the same order, in which every
    human message is a human message and every other message
    (assistant, system, tool, ...) is an assistant message: the stored
    tag is "human" or "ai" and nothing else. *)
Theorem save_load_normalizes (sid : string) (msgs : list Message)
    (w w' : World) :
  save_memory sid msgs w = (Ok tt, w') ->
  load_memory sid w' = (Ok (map as_stored msgs), w').
Proof.
  intros Hsave.
  destruct (query_proofs.save_memory_ok_inv _ _ _ _ Hsave) as [_ Hwrite].
  unfold load_memory.
  destruct (read_after_write_any _ _ _ _ Hwrite) as [_ ->]. reflexivity.
Qed.

(** X12. Saving is a full overwrite: when two saves under one session id
    return, the session file holds the array of the second list and
    nothing of the first, and loading returns the second list only. *)
Theorem second_save_replaces_first (sid : string) (first second : list Message)
    (w w1 w2 : World) :
  save_memory sid first w = (Ok tt, w1) ->
  save_memory sid second w1 = (Ok tt, w2) ->
  read_json (path_str (session_file sid)) (disk w2)
  = Ok (JList (map stored_entry second)) /\
  load_memory sid w2 = (Ok (map as_stored second), w2).
Proof.
  intros _ Hsave.
  destruct (query_proofs.save_memory_ok_inv _ _ _ _ Hsave) as [_ Hwrite].
  unfold load_memory.
  destruct (read_after_write_any _ _ _ _ Hwrite) as [-> ->].
  split; reflexivity.
Qed.

(** X16. Saving back what was loaded is stable: when [load_memory]
    returns a history, saving that history under the same id and loading
    again returns the same history (entries with foreign tags are gone
    from the file, the turns are kept). *)
Theorem resave_loaded_history (sid : string) (msgs : list Message) (w : World) :
  load_memory sid w = (Ok msgs, w) ->
  load_memory sid (snd (save_memory sid msgs w))
  = (Ok msgs, snd (save_memory sid msgs w)).
Proof.
  intros Hload. unfold load_memory in Hload. injection Hload as Hread.
  unfold save_memory, on_disk, load_memory.
  destruct (write_memory (disk w) sid msgs) as [[[]|e] d'] eqn:Hwrite;
    cbn [snd disk].
  - destruct (query_proofs.read_after_write _ _ _ _
                (query_proofs.read_memory_turns _ _ _ Hread) Hwrite) as [_ ->].
    reflexivity.
  - unfold write_memory in Hwrite.
    rewrite (failed_write_changes_nothing _ _ _ _ _ Hwrite), Hread.
    reflexivity.
Qed.

End Lawful.

End WithServices.

(** *** [format_docs] *)

Lemma format_doc_contains (d : Document) :
  contains (page_content d) (format_doc d) = true.
Proof.
  unfold format_doc. do 7 apply contains_append_r. apply contains_refl.
Qed.

Lemma format_docs_cons (d d' : Document) (docs : list Document) :
  format_docs (d :: d' :: docs)
  = format_doc d +:+ docs_separator +:+ format_docs (d' :: docs).
Proof. reflexivity. Qed.

(** X17. Nothing retrieved is lost in formatting: the content of every
    document of the list occurs in the string [format_docs] returns. *)
Theorem format_docs_contains_each (docs : list Document) (d : Document) :
  In d docs ->
  contains (page_content d) (format_docs docs) = true.
Proof.
  induction docs as [|d0 docs IH]; intros Hin; [contradiction|].
  destruct docs as [|d1 docs].
  - destruct Hin as [->|[]]. apply format_doc_contains.
  - rewrite format_docs_cons. destruct Hin as [->|Hin].
    + apply contains_append_l. apply format_doc_contains.
    + do 2 apply contains_append_r. exact (IH Hin).
Qed.

(** X18. Formatting follows the order of the list: for two non-empty
    lists, the string for their concatenation is the string for the
    first, the blank-line separator, and the string for the second. *)
Theorem format_docs_app (docs docs' : list Document) :
  docs <> [] -> docs' <> [] ->
  format_docs (docs ++ docs')
  = format_docs docs +:+ docs_separator +:+ format_docs docs'.
Proof.
  intros Hne Hne'. induction docs as [|d docs IH]; [congruence|].
  destruct docs as [|d1 docs].
  - destruct docs' as [|d' docs']; [congruence|]. reflexivity.
  - change ((d :: d1 :: docs) ++ docs') with (d :: d1 :: (docs ++ docs')).
    rewrite !format_docs_cons.
    change (d1 :: docs ++ docs') with ((d1 :: docs) ++ docs').
    rewrite IH by discriminate.
    rewrite !append_assoc. reflexivity.
Qed.

(** *** A query run and the session files *)

Section Run.
Context `{S : Services}.

(** X19. A query run writes at most its own session file.  Without a
    session id (none given, or the empty string) the disk after [main]
    is the disk before, whatever the backend does and however the run
    ends.  With a session id, the disk after [main] is either the disk
    before, or the disk left by one write, at the path [pathlib] builds
    for that id, of the array of the loaded history followed by the new
    exchange. *)
Theorem main_touches_only_session_file (args : Args) (w : World) :
  match session_given args with
  | None => disk (snd (main args w)) = disk w
  | Some sid =>
      disk (snd (main args w)) = disk w \/
      exists hist res,
        read_memory (disk w) sid = Ok hist /\
        disk (snd (main args w))
        = snd (write_json (path_str (session_file sid))
                 (JList (map stored_entry (hist ++ exchange args res)))
                 (disk w))
  end.
Proof.
  pose proof (query_proofs.keeps_disk_answer_question args w) as Hkeep.
  destruct (session_given args) as [sid|] eqn:Hsid.
  - destruct (answer_question args w) as [[[[hist res]|]|e] w1] eqn:Hrun.
    + right. exists hist, res.
      destruct (query_proofs.answer_question_inv _ _ _ _ _ _ Hsid Hrun)
        as [Hdisk Hread].
      split; [exact Hread|].
      rewrite (query_proofs.main_after_answer _ _ _ _ _ _ Hsid Hrun).
      unfold save_memory, on_disk, write_memory.
      rewrite query_proofs.save_loop_app, Hdisk. cbn [app].
      destruct (write_json _ _ (disk w)); reflexivity.
    + left. unfold main, bind. rewrite Hrun. exact Hkeep.
    + left. unfold main, bind. rewrite Hrun. exact Hkeep.
  - unfold main, bind.
    destruct (answer_question args w) as [[[[hist res]|]|e] w1];
      cbn [snd] in *; try exact Hkeep.
    unfold persist. rewrite Hsid. exact Hkeep.
Qed.

(** X21. When the connection step raises, [main] absorbs the exception
    and returns at once: nothing is retrieved, no model is asked, the
    session file is neither read nor written (so the run ends normally
    even when that file is unreadable). *)
Theorem connection_failure_ends_run (args : Args) (w : World) (e : exn)
    (b : Backend) :
  connect (backend w) = (Raise e, b) ->
  main args w = (Ok tt, {| backend := b; disk := disk w |}).
Proof.
  intros Hconn.
  unfold main, answer_question, bind, try_except, on_backend, ret.
  rewrite Hconn. reflexivity.
Qed.

(** X22. A session file that cannot be turned into a history stops the
    run: when the connection succeeds and loading the given session
    raises, [main] raises that exception before anything is retrieved or
    asked, and the files are as they were. *)
Theorem unreadable_session_aborts_run (args : Args) (sid : string)
    (w : World) (e : exn) (b : Backend) :
  connect (backend w) = (Ok tt, b) ->
  session_given args = Some sid ->
  read_memory (disk w) sid = Raise e ->
  main args w = (Raise e, {| backend := b; disk := disk w |}).
Proof.
  intros Hconn Hsid Hread.
  unfold main, answer_question, bind, try_except, on_backend, ret.
  rewrite Hconn. cbn [negb]. rewrite Hsid.
  unfold load_memory. cbn [disk]. rewrite Hread. reflexivity.
Qed.

(** X20. A run that raises has saved nothing: when [main] ends with an
    exception (from loading the history, from the retriever, from the
    model or from the save itself), the disk is as it was before the
    run. *)
Theorem failed_run_keeps_files {L : LawfulDisk} (args : Args) (w w' : World)
    (e : exn) :
  main args w = (Raise e, w') ->
  disk w' = disk w.
Proof.
  intros Hmain. unfold main, bind in Hmain.
  pose proof (query_proofs.keeps_disk_answer_question args w) as Hkeep.
  destruct (answer_question args w) as [[[[history result]|]|e1] w1];
    cbn [snd] in Hkeep.
  - unfold persist in Hmain. destruct (session_given args) as [sid|];
      [|discriminate].
    unfold save_memory, on_disk, write_memory in Hmain.
    destruct (write_json _ _ (disk w1)) as [[[]|e2] d'] eqn:Hwrite;
      [discriminate|].
    injection Hmain as _ <-. cbn [disk].
    rewrite (failed_write_changes_nothing _ _ _ _ _ Hwrite). exact Hkeep.
  - discriminate.
  - injection Hmain as _ <-. exact Hkeep.
Qed.

End Run.

(** *** The properties on sample runs *)

Lemma save_load_normalizes_witness :
  let msgs := [ OtherMessage "SystemMessage" (ContentStr "be brief");
                HumanMessage (ContentStr "What is addition?") ] in
  save_memory "test1" msgs fresh_world
  = (Ok tt, snd (save_memory "test1" msgs fresh_world)) /\
  load_memory "test1" (snd (save_memory "test1" msgs fresh_world))
  = (Ok (map as_stored msgs), snd (save_memory "test1" msgs fresh_world)).
Proof.
  intros msgs.
  refine ((fun H => conj H
             (@save_load_normalizes counting_backend
                query_proofs.counting_backend_lawful "test1" msgs fresh_world
                _ H)) _).
  query_proofs.by_running.
Defined.

Lemma second_save_replaces_first_witness :
  let second := [ HumanMessage (ContentStr "And subtraction?") ] in
  (save_memory "test1" sample_turns fresh_world = (Ok tt, saved_world) /\
   save_memory "test1" second saved_world
   = (Ok tt, snd (save_memory "test1" second saved_world))) /\
  read_json (path_str (session_file "test1"))
    (disk (snd (save_memory "test1" second saved_world)))
  = Ok (JList (map stored_entry second)) /\
  load_memory "test1" (snd (save_memory "test1" second saved_world))
  = (Ok (map as_stored second), snd (save_memory "test1" second saved_world)).
Proof.
  intros second.
  refine ((fun H1 H2 => conj (conj H1 H2)
             (@second_save_replaces_first counting_backend
                query_proofs.counting_backend_lawful "test1" sample_turns second
                fresh_world saved_world _ H1 H2)) _ _);
    query_proofs.by_running.
Defined.

Lemma dot_prefixed_id_names_same_file_witness :
  String.prefix "/" "test1" = false /\
  path_str (session_file ("./" +:+ "test1")) = path_str (session_file "test1") /\
  load_memory ("./" +:+ "test1") mixed_world = load_memory "test1" mixed_world /\
  save_memory ("./" +:+ "test1") sample_turns mixed_world
  = save_memory "test1" sample_turns mixed_world.
Proof.
  refine ((fun H => conj H (dot_prefixed_id_names_same_file "test1"
                              sample_turns mixed_world H)) _).
  reflexivity.
Defined.

Lemma loaded_history_is_bounded_witness :
  (Path_exists (path_str (session_file "test1")) (disk mixed_world) = Ok true /\
   read_json (path_str (session_file "test1")) (disk mixed_world)
   = Ok (JList mixed_array) /\
   load_memory "test1" mixed_world = (Ok sample_turns, mixed_world)) /\
  mixed_world = mixed_world /\
  Forall (fun m => is_turn m = true) sample_turns /\
  length sample_turns <= length mixed_array.
Proof.
  refine ((fun H1 H2 H3 => conj (conj H1 (conj H2 H3))
             (loaded_history_is_bounded "test1" mixed_array sample_turns
                mixed_world mixed_world H1 H2 H3)) _ _ _);
    query_proofs.by_running.
Defined.

Lemma untagged_entry_aborts_load_witness :
  (Path_exists (path_str (session_file "broken")) (disk (stored_world true true))
   = Ok true /\
   read_json (path_str (session_file "broken")) (disk (stored_world true true))
   = Ok (JList
       ([JDict [("type", JStr "human"); ("content", JStr "What is addition?")]]
        ++ JDict [("content", JStr "The sum of two numbers.")]
        :: [JDict [("type", JStr "ai"); ("content", JStr "never reached")]])) /\
   Forall session_entry
     [JDict [("type", JStr "human"); ("content", JStr "What is addition?")]] /\
   getitem (JDict [("content", JStr "The sum of two numbers.")]) "type"
   = Raise (KeyError "type")) /\
  load_memory "broken" (stored_world true true)
  = (Raise (KeyError "type"), stored_world true true).
Proof.
  refine ((fun H0 H1 H2 H3 => conj (conj H0 (conj H1 (conj H2 H3)))
             (untagged_entry_aborts_load "broken" _ _ _ _ (stored_world true true)
                H0 H1 H2 H3)) _ _ _ _).
  - query_proofs.by_running.
  - query_proofs.by_running.
  - apply Forall_cons. split; [|apply Forall_nil_2].
    eexists _, _. split; [reflexivity|]. split; [reflexivity|].
    intros _. eexists _, _. split; reflexivity.
  - reflexivity.
Defined.

Lemma resave_loaded_history_witness :
  load_memory "test1" mixed_world = (Ok sample_turns, mixed_world) /\
  load_memory "test1" (snd (save_memory "test1" sample_turns mixed_world))
  = (Ok sample_turns, snd (save_memory "test1" sample_turns mixed_world)).
Proof.
  refine ((fun H => conj H
             (@resave_loaded_history counting_backend
                query_proofs.counting_backend_lawful "test1" sample_turns
                mixed_world H)) _).
  query_proofs.by_running.
Defined.

Lemma format_docs_contains_each_witness :
  In sample_document [second_document; sample_document] /\
  contains (page_content sample_document)
    (format_docs [second_document; sample_document]) = true.
Proof.
  refine ((fun H => conj H (format_docs_contains_each
                              [second_document; sample_document]
                              sample_document H)) _).
  right. left. reflexivity.
Defined.

Lemma format_docs_app_witness :
  ([second_document] <> [] /\ [sample_document] <> []) /\
  format_docs ([second_document] ++ [sample_document])
  = format_docs [second_document] +:+ docs_separator
    +:+ format_docs [sample_document].
Proof.
  refine ((fun H1 H2 => conj (conj H1 H2)
             (format_docs_app [second_document] [sample_document] H1 H2)) _ _);
    discriminate.
Defined.

(** A run under the id "./test1" replaces the file of the session
    "test1". *)
Example dot_prefixed_run_overwrites_session :
  let args := {| question := "And subtraction?"; summarize := false;
                 session_id := Some "./test1" |} in
  read_json "chat_sessions/test1.json" (disk mixed_world)
  = Ok (JList mixed_array) /\
  read_json "chat_sessions/test1.json" (disk (snd (main args mixed_world)))
  = Ok (JList (map stored_entry
                 (sample_turns
                  ++ [ HumanMessage (ContentStr "And subtraction?");
                       AIMessage (ContentStr "answer 2") ]))).
Proof. intros args. query_proofs.by_running. Qed.

Lemma failed_run_keeps_files_witness :
  main first_args (stored_world true false)
  = (Raise BackendError, snd (main first_args (stored_world true false))) /\
  disk (snd (main first_args (stored_world true false)))
  = disk (stored_world true false).
Proof.
  refine ((fun H => conj H
             (@failed_run_keeps_files (faulty_backend true false)
                (query_proofs.faulty_backend_lawful true false) first_args
                (stored_world true false) _ BackendError H)) _).
  query_proofs.by_running.
Defined.

Lemma connection_failure_ends_run_witness :
  @connect (faulty_backend false true) (backend (stored_world false true))
  = (Raise BackendError, 1%nat) /\
  main broken_args (stored_world false true)
  = (Ok tt, @Build_World (faulty_backend false true) 1%nat
              (disk (stored_world false true))).
Proof.
  refine ((fun H => conj H (connection_failure_ends_run broken_args
                              (stored_world false true) BackendError 1%nat H)) _).
  reflexivity.
Defined.

Lemma unreadable_session_aborts_run_witness :
  (@connect (faulty_backend true true) (backend (stored_world true true))
   = (Ok tt, 1%nat) /\
   session_given broken_args = Some "broken" /\
   read_memory (disk (stored_world true true)) "broken"
   = Raise (KeyError "type")) /\
  main broken_args (stored_world true true)
  = (Raise (KeyError "type"),
     @Build_World (faulty_backend true true) 1%nat
       (disk (stored_world true true))).
Proof.
  refine ((fun H1 H2 H3 => conj (conj H1 (conj H2 H3))
             (unreadable_session_aborts_run broken_args "broken"
                (stored_world true true) (KeyError "type") 1%nat H1 H2 H3))
            _ _ _).
  - reflexivity.
  - reflexivity.
  - query_proofs.by_running.
Defined.

End query_extras.
